(** * A Monte Carlo emergency-department model: [dataclass_snippet.py]

    The development embeds the two classes of the script,
    [ScenarioParameters] (a frozen dataclass) and [SimpleMonteCarloED]
    (three vectorised draws from a [numpy.random.RandomState], combined into
    one array of times in the department), and proves the properties its
    specification states about them.

    Numbers are binary64 floats ([PrimFloat.float]), arrays are lists,
    Python objects live in a store addressed by locations, and a call is a
    function from the store to an outcome (a value or an exception) and the
    store it leaves behind. *)

From Stdlib Require Import String ZArith List Bool Lia Floats Permutation.
Import ListNotations.
Local Open Scope string_scope.
Local Open Scope list_scope.
Local Open Scope Z_scope.
Set Warnings "-inexact-float".

(** ** Exceptions and outcomes

    [ValueError], [IndexError] and [MemoryError] are numpy's,
    [FrozenInstanceError] is the dataclass's.  [UnboundReference] is the
    outcome of following a location
    that holds no object: no run of the script produces it, the store needs it
    to be total. *)

Inductive exn : Type :=
| ValueError (msg : string)
| IndexError (msg : string)
| FrozenInstanceError (msg : string)
| MemoryError (msg : string)
| UnboundReference.

Inductive result (A : Type) : Type :=
| Ok (a : A)
| Raise (e : exn).

Arguments Ok {A} a.
Arguments Raise {A} e.

Definition is_ok {A : Type} (r : result A) : bool :=
  match r with Ok _ => true | Raise _ => false end.

(** ** The frozen dataclass [ScenarioParameters] (lines 8-27) *)

Record ScenarioParameters : Type := {
  name : string;
  mean_process_time : float;
  mean_dta : float;
  p_admit : float
}.

(** The [__init__] that [@dataclass] generates: [name] is required, the other
    three fields have the defaults of the class body. *)
Definition ScenarioParameters_new (name : string)
    (mean_process_time mean_dta p_admit : option float) : ScenarioParameters :=
  {| name := name;
     mean_process_time := match mean_process_time with Some x => x | None => 150.0%float end;
     mean_dta := match mean_dta with Some x => x | None => 120.0%float end;
     p_admit := match p_admit with Some x => x | None => 0.4%float end |}.

(** An attribute assignment [obj.<field> = value]. *)
Inductive assignment : Type :=
| set_name (v : string)
| set_mean_process_time (v : float)
| set_mean_dta (v : float)
| set_p_admit (v : float).

Definition field_of (a : assignment) : string :=
  match a with
  | set_name _ => "name"
  | set_mean_process_time _ => "mean_process_time"
  | set_mean_dta _ => "mean_dta"
  | set_p_admit _ => "p_admit"
  end.

(** What [object.__setattr__] does with the assignment. *)
Definition store_field (a : assignment) (p : ScenarioParameters) : ScenarioParameters :=
  match a with
  | set_name v =>
      {| name := v; mean_process_time := mean_process_time p;
         mean_dta := mean_dta p; p_admit := p_admit p |}
  | set_mean_process_time v =>
      {| name := name p; mean_process_time := v;
         mean_dta := mean_dta p; p_admit := p_admit p |}
  | set_mean_dta v =>
      {| name := name p; mean_process_time := mean_process_time p;
         mean_dta := v; p_admit := p_admit p |}
  | set_p_admit v =>
      {| name := name p; mean_process_time := mean_process_time p;
         mean_dta := mean_dta p; p_admit := v |}
  end.

(** The decorator of line 8 is [@dataclass(frozen=True)]. *)
Definition ScenarioParameters_frozen : bool := true.

(** ** The store *)

Definition loc : Type := nat.

Definition upd {A : Type} (h : loc -> option A) (l : loc) (a : A) : loc -> option A :=
  fun l' => if Nat.eqb l' l then Some a else h l'.

(** [G] is the internal state of a generator.  [os_entropy] is what the
    operating system hands to an unseeded generator; [entropy_pos] counts the
    words already handed out. *)
Record world (G : Type) : Type := {
  params_heap : loc -> option ScenarioParameters;
  rs_heap : loc -> option G;
  next_loc : loc;
  os_entropy : nat -> Z;
  entropy_pos : nat
}.

Arguments params_heap {G} w l : rename.
Arguments rs_heap {G} w l : rename.
Arguments next_loc {G} w : rename.
Arguments os_entropy {G} w n : rename.
Arguments entropy_pos {G} w : rename.

Definition set_params_heap {G} (h : loc -> option ScenarioParameters) (w : world G) : world G :=
  {| params_heap := h; rs_heap := rs_heap w; next_loc := next_loc w;
     os_entropy := os_entropy w; entropy_pos := entropy_pos w |}.

Definition set_rs_heap {G} (h : loc -> option G) (w : world G) : world G :=
  {| params_heap := params_heap w; rs_heap := h; next_loc := next_loc w;
     os_entropy := os_entropy w; entropy_pos := entropy_pos w |}.

Definition set_next_loc {G} (n : loc) (w : world G) : world G :=
  {| params_heap := params_heap w; rs_heap := rs_heap w; next_loc := n;
     os_entropy := os_entropy w; entropy_pos := entropy_pos w |}.

Definition set_entropy_pos {G} (n : nat) (w : world G) : world G :=
  {| params_heap := params_heap w; rs_heap := rs_heap w; next_loc := next_loc w;
     os_entropy := os_entropy w; entropy_pos := n |}.

Definition empty_world {G} (entropy : nat -> Z) : world G :=
  {| params_heap := fun _ => None; rs_heap := fun _ => None; next_loc := 0%nat;
     os_entropy := entropy; entropy_pos := 0%nat |}.

(** ** Calls: state and exceptions *)

Definition M (G A : Type) : Type := world G -> result A * world G.

Definition ret {G A} (a : A) : M G A := fun w => (Ok a, w).

Definition raise {G A} (e : exn) : M G A := fun w => (Raise e, w).

Definition bind {G A B} (m : M G A) (k : A -> M G B) : M G B :=
  fun w =>
    match m w with
    | (Ok a, w1) => k a w1
    | (Raise e, w1) => (Raise e, w1)
    end.

Definition lift {G A} (r : result A) : M G A := fun w => (r, w).

Declare Scope py_scope.
Delimit Scope py_scope with py.
Notation "x <- m ;; k" := (bind m (fun x => k))
  (at level 100, m at next level, right associativity) : py_scope.
Local Open Scope py_scope.

Definition alloc_params {G} (p : ScenarioParameters) : M G loc :=
  fun w =>
    let l := next_loc w in
    (Ok l, set_next_loc (S l) (set_params_heap (upd (params_heap w) l p) w)).

Definition alloc_rs {G} (g : G) : M G loc :=
  fun w =>
    let l := next_loc w in
    (Ok l, set_next_loc (S l) (set_rs_heap (upd (rs_heap w) l g) w)).

Definition read_params {G} (l : loc) : M G ScenarioParameters :=
  fun w =>
    match params_heap w l with
    | Some p => (Ok p, w)
    | None => (Raise UnboundReference, w)
    end.

Definition read_entropy {G} : M G Z :=
  fun w => (Ok (os_entropy w (entropy_pos w)), set_entropy_pos (S (entropy_pos w)) w).

(** A method call on the generator stored at [l]: the method runs on the
    generator state and the state it leaves is written back, also when the
    method raises. *)
Definition with_rs {G A} (l : loc) (method : G -> result A * G) : M G A :=
  fun w =>
    match rs_heap w l with
    | Some g =>
        let (r, g1) := method g in
        (r, set_rs_heap (upd (rs_heap w) l g1) w)
    | None => (Raise UnboundReference, w)
    end.

(** [ScenarioParameters(...)] as an expression: a new object in the store. *)
Definition ScenarioParameters_init {G} (name : string)
    (mean_process_time mean_dta p_admit : option float) : M G loc :=
  alloc_params (ScenarioParameters_new name mean_process_time mean_dta p_admit).

(** The [__setattr__] of a dataclass: with [frozen=True] every assignment to an
    instance raises [FrozenInstanceError]; without it the value is stored. *)
Definition dataclass_setattr {G} (frozen : bool) (l : loc) (a : assignment) : M G unit :=
  fun w =>
    match params_heap w l with
    | None => (Raise UnboundReference, w)
    | Some p =>
        if frozen
        then (Raise (FrozenInstanceError ("cannot assign to field " ++ field_of a)), w)
        else (Ok tt, set_params_heap (upd (params_heap w) l (store_field a p)) w)
    end.

Definition ScenarioParameters_setattr {G} (l : loc) (a : assignment) : M G unit :=
  dataclass_setattr ScenarioParameters_frozen l a.

(** ** [numpy.random.RandomState]

    The script calls three things of the generator: its constructor and the
    methods [exponential] and [binomial].  What numpy does around the sampling
    kernels (checking the arguments, allocating the array, filling it one
    variate after the other) is written out here.  What is left open are the
    operations of a [BitGenerator]: the kernels, which turn generator bits into
    one variate, and the size of the largest array the machine allocates. *)

Class BitGenerator (G : Type) : Type := {
  (** the state seeded from an integer *)
  seed_state : Z -> G;
  (** the state seeded from operating-system entropy *)
  entropy_state : Z -> G;
  (** one standard exponential variate *)
  standard_exponential : G -> float * G;
  (** one binomial variate for [n] trials of probability [p] *)
  random_binomial : Z -> float -> G -> Z * G;
  (** the number of cells up to which the machine allocates an array *)
  array_limit : N
}.

Section Numpy.
Context {G : Type} {K : BitGenerator G}.

Inductive constraint_type : Type := CONS_NON_NEGATIVE | CONS_BOUNDED_0_1.

(** The argument check that precedes every draw. *)
Definition check_constraint (val : float) (arg : string) (cons : constraint_type)
  : result unit :=
  match cons with
  | CONS_NON_NEGATIVE =>
      if negb (is_nan val) && get_sign val
      then Raise (ValueError (arg ++ " < 0"))
      else Ok tt
  | CONS_BOUNDED_0_1 =>
      if negb (0 <=? val)%float || negb (val <=? 1)%float
      then Raise (ValueError (arg ++ " < 0, " ++ arg ++ " > 1 or " ++ arg ++ " is NaN"))
      else Ok tt
  end.

(** [np.empty(size)] for an integer [size] and cells of eight bytes (float64,
    int64): the number of cells.  numpy refuses a negative size, a size that is
    no array index (2**63 and above) and an array of 2**63 bytes or more; an
    array beyond what the machine allocates is a [MemoryError].  The arrays
    that lines 70-77 build are no larger than the ones allocated here. *)
Definition np_empty (size : Z) : result nat :=
  if size <? 0
  then Raise (ValueError "negative dimensions are not allowed")
  else if 2 ^ 63 <=? size
  then Raise (ValueError "Maximum allowed dimension exceeded")
  else if 2 ^ 63 <=? 8 * size
  then Raise (ValueError "array is too big")
  else if Z.of_N array_limit <? size
  then Raise (MemoryError "Unable to allocate array")
  else Ok (Z.to_nat size).

(** The sizes for which an array is allocated. *)
Definition size_accepted (size : Z) : bool := is_ok (np_empty size).

(** Filling [cnt] cells, one variate after the other. *)
Fixpoint fill {A : Type} (sample : G -> A * G) (cnt : nat) (g : G) : list A * G :=
  match cnt with
  | O => ([], g)
  | S k =>
      let (x, g1) := sample g in
      let (xs, g2) := fill sample k g1 in
      (x :: xs, g2)
  end.

Definition exponential_variate (scale : float) (g : G) : float * G :=
  let (e, g1) := standard_exponential g in ((scale * e)%float, g1).

(** [rs.exponential(scale, size=size)] *)
Definition rs_exponential (scale : float) (size : Z) (g : G) : result (list float) * G :=
  match check_constraint scale "scale" CONS_NON_NEGATIVE with
  | Raise e => (Raise e, g)
  | Ok _ =>
      match np_empty size with
      | Raise e => (Raise e, g)
      | Ok cnt => let (xs, g1) := fill (exponential_variate scale) cnt g in (Ok xs, g1)
      end
  end.

(** [rs.binomial(n=n, p=p, size=size)] *)
Definition rs_binomial (n : Z) (p : float) (size : Z) (g : G) : result (list Z) * G :=
  match check_constraint p "p" CONS_BOUNDED_0_1 with
  | Raise e => (Raise e, g)
  | Ok _ =>
      if n <? 0 then (Raise (ValueError "n < 0"), g)
      else
        match np_empty size with
        | Raise e => (Raise e, g)
        | Ok cnt => let (ks, g1) := fill (random_binomial n p) cnt g in (Ok ks, g1)
        end
  end.

Definition seed_in_range (s : Z) : bool := (0 <=? s) && (s <? 2 ^ 32).

(** [RandomState(seed)]: a new generator object. *)
Definition RandomState (seed : option Z) : M G loc :=
  match seed with
  | None => e <- read_entropy ;; alloc_rs (entropy_state e)
  | Some s =>
      if seed_in_range s
      then alloc_rs (seed_state s)
      else raise (ValueError "Seed must be between 0 and 2**32 - 1")
  end.

(** *** Array operations *)

(** [a == k] on an integer array *)
Definition np_eq (a : list Z) (k : Z) : list bool := map (fun x => x =? k) a.

Fixpoint select {A : Type} (a : list A) (mask : list bool) : list A :=
  match a, mask with
  | x :: a', b :: mask' => if b then x :: select a' mask' else select a' mask'
  | _, _ => []
  end.

(** [a[mask]] for a boolean array [mask] *)
Definition np_getitem {A : Type} (a : list A) (mask : list bool) : result (list A) :=
  if Nat.eqb (length mask) (length a)
  then Ok (select a mask)
  else Raise (IndexError "boolean index did not match indexed array").

Fixpoint zip_add (a b : list float) : list float :=
  match a, b with
  | x :: a', y :: b' => (x + y)%float :: zip_add a' b'
  | _, _ => []
  end.

(** [a + b] on one-dimensional arrays: element by element when the shapes
    agree, an array of one cell is broadcast, anything else is an error. *)
Definition np_add (a b : list float) : result (list float) :=
  if Nat.eqb (length a) (length b) then Ok (zip_add a b)
  else
    match a, b with
    | [x], _ => Ok (map (fun y => (x + y)%float) b)
    | _, [y] => Ok (map (fun x => (x + y)%float) a)
    | _, _ => Raise (ValueError "operands could not be broadcast together")
    end.

(** [np.append(a, b)] *)
Definition np_append {A : Type} (a b : list A) : list A := a ++ b.

(** ** [SimpleMonteCarloED] (lines 32-97) *)

Record SimpleMonteCarloED : Type := {
  _params : loc;
  _rs : loc
}.

(** [__init__] (lines 43-56) *)
Definition SimpleMonteCarloED_init (params : loc) (random_state : option Z)
  : M G SimpleMonteCarloED :=
  rs <- RandomState random_state ;;
  ret {| _params := params; _rs := rs |}.

(** lines 79-84 *)
Definition _simulate_ed_process_times (self : SimpleMonteCarloED) (n_patients : Z)
  : M G (list float) :=
  params <- read_params (_params self) ;;
  with_rs (_rs self) (rs_exponential (mean_process_time params) n_patients).

(** lines 86-91 *)
Definition _simulate_admission (self : SimpleMonteCarloED) (n_patients : Z)
  : M G (list Z) :=
  params <- read_params (_params self) ;;
  with_rs (_rs self) (rs_binomial 1 (p_admit params) n_patients).

(** lines 93-97 *)
Definition _simulate_dta_times (self : SimpleMonteCarloED) (n_patients : Z)
  : M G (list float) :=
  params <- read_params (_params self) ;;
  with_rs (_rs self) (rs_exponential (mean_dta params) n_patients).

(** lines 69-77: the three arrays combined into the times in the department *)
Definition ed_times (process_times : list float) (admissions : list Z)
    (admit_delays : list float) : result (list float) :=
  match np_getitem process_times (np_eq admissions 1) with
  | Raise e => Raise e
  | Ok process_admit =>
      match np_getitem admit_delays (np_eq admissions 1) with
      | Raise e => Raise e
      | Ok delays_admit =>
          match np_add process_admit delays_admit with
          | Raise e => Raise e
          | Ok ed_times_admit =>
              match np_getitem process_times (np_eq admissions 0) with
              | Raise e => Raise e
              | Ok ed_times_not_admit => Ok (np_append ed_times_admit ed_times_not_admit)
              end
          end
      end
  end.

(** [simulate] (lines 58-77) *)
Definition simulate (self : SimpleMonteCarloED) (n_patients : Z) : M G (list float) :=
  process_times <- _simulate_ed_process_times self n_patients ;;
  admissions <- _simulate_admission self n_patients ;;
  admit_delays <- _simulate_dta_times self n_patients ;;
  lift (ed_times process_times admissions admit_delays).

End Numpy.

(** ** The vocabulary of the specification *)

Definition nonneg (x : float) : bool := (0 <=? x)%float.

(** A positive real: above zero and not infinite (and so not NaN). *)
Definition positive_real (x : float) : bool := (0 <? x)%float && (x <? infinity)%float.

Definition probability (p : float) : bool := (0 <=? p)%float && (p <=? 1)%float.

(** A valid configuration: positive means, [p_admit] in [0,1]. *)
Definition valid_configuration (c : ScenarioParameters) : bool :=
  positive_real (mean_process_time c) && positive_real (mean_dta c) && probability (p_admit c).

(** A scale that [exponential] rejects. *)
Definition scale_rejected (x : float) : bool :=
  negb (is_ok (check_constraint x "scale" CONS_NON_NEGATIVE)).


(** The configurations the three samplers take without raising. *)
Definition sampler_accepts (c : ScenarioParameters) : bool :=
  is_ok (check_constraint (mean_process_time c) "scale" CONS_NON_NEGATIVE)
  && is_ok (check_constraint (p_admit c) "p" CONS_BOUNDED_0_1)
  && is_ok (check_constraint (mean_dta c) "scale" CONS_NON_NEGATIVE).

Definition admitted (admissions : list Z) (i : nat) : bool := nth i admissions 0 =? 1.

Definition not_admitted (admissions : list Z) (i : nat) : bool := nth i admissions 0 =? 0.

(** Total times of the admitted patients, by patient index. *)
Definition admitted_total_times (process_times : list float) (admissions : list Z)
    (admit_delays : list float) (n : nat) : list float :=
  map (fun i => (nth i process_times 0 + nth i admit_delays 0)%float)
      (filter (admitted admissions) (seq 0 n)).

(** Total times of the patients that are not admitted, by patient index. *)
Definition not_admitted_total_times (process_times : list float) (admissions : list Z)
    (n : nat) : list float :=
  map (fun i => nth i process_times 0%float) (filter (not_admitted admissions) (seq 0 n)).

(** The total time of patient [i]. *)
Definition total_time (process_times : list float) (admissions : list Z)
    (admit_delays : list float) (i : nat) : float :=
  if admitted admissions i
  then (nth i process_times 0 + nth i admit_delays 0)%float
  else nth i process_times 0%float.

(** The sign of a binary64 value, read on its specification. *)
Definition sf_nonneg (x : spec_float) : bool :=
  match x with
  | S754_zero _ => true
  | S754_infinity s => negb s
  | S754_nan => false
  | S754_finite s _ _ => negb s
  end.

Definition sf_positive_finite (x : spec_float) : bool :=
  match x with
  | S754_finite false _ _ => true
  | _ => false
  end.

Section Generator.
Context {G : Type} {K : BitGenerator G}.

(** The generator after [cnt] variates of one kind have been drawn. *)
Fixpoint advance {A : Type} (sample : G -> A * G) (cnt : nat) (g : G) : G :=
  match cnt with
  | O => g
  | S k => advance sample k (snd (sample g))
  end.

(** The three draws of [simulate] on the generator alone. *)
Definition three_draws (c : ScenarioParameters) (n : Z) (g : G)
  : result (list float * list Z * list float) * G :=
  match rs_exponential (mean_process_time c) n g with
  | (Raise e, g1) => (Raise e, g1)
  | (Ok process_times, g1) =>
      match rs_binomial 1 (p_admit c) n g1 with
      | (Raise e, g2) => (Raise e, g2)
      | (Ok admissions, g2) =>
          match rs_exponential (mean_dta c) n g2 with
          | (Raise e, g3) => (Raise e, g3)
          | (Ok admit_delays, g3) => (Ok (process_times, admissions, admit_delays), g3)
          end
      end
  end.

(** Lines 130-131: a simulator built on the configuration at [params], run
    once. *)
Definition run_once (params : loc) (random_state : option Z) (n_patients : Z)
  : M G (list float) :=
  model <- SimpleMonteCarloED_init params random_state ;;
  simulate model n_patients.

(** Two simulators built on the configuration at [params], then each run
    once. *)
Definition run_twice (params : loc) (random_state : option Z) (n_patients : Z)
  : M G (list float * list float) :=
  model1 <- SimpleMonteCarloED_init params random_state ;;
  model2 <- SimpleMonteCarloED_init params random_state ;;
  out1 <- simulate model1 n_patients ;;
  out2 <- simulate model2 n_patients ;;
  ret (out1, out2).

(** A binomial variate of one trial is 0 or 1. *)
Definition bernoulli_kernel : Prop :=
  forall p g, probability p = true ->
    fst (random_binomial 1 p g) = 0 \/ fst (random_binomial 1 p g) = 1.

(** A standard exponential variate is not below zero. *)
Definition exponential_kernel_nonneg : Prop :=
  forall g, nonneg (fst (standard_exponential g)) = true.

(** [self] refers to the configuration [c] and to a generator in state [g]. *)
Definition live (self : SimpleMonteCarloED) (w : world G)
    (c : ScenarioParameters) (g : G) : Prop :=
  params_heap w (_params self) = Some c /\ rs_heap w (_rs self) = Some g.

(** The outcome of [simulate] from the outcome of its three draws. *)
Definition outcome_of_draws (r : result (list float * list Z * list float))
  : result (list float) :=
  match r with
  | Ok (process_times, admissions, admit_delays) =>
      ed_times process_times admissions admit_delays
  | Raise e => Raise e
  end.

(** Nothing but the generator at [l] differs between [w] and [w']. *)
Definition only_generator_changed (l : loc) (w w' : world G) : Prop :=
  params_heap w' = params_heap w
  /\ (forall l', l' <> l -> rs_heap w' l' = rs_heap w l')
  /\ next_loc w' = next_loc w
  /\ os_entropy w' = os_entropy w
  /\ entropy_pos w' = entropy_pos w.

(** A call leaves everything but the generator at [l] as it was. *)
Definition frames {A : Type} (l : loc) (m : M G A) : Prop :=
  forall w, only_generator_changed l w (snd (m w)).

End Generator.

(** ** The script (lines 101-132) and other callers *)

(** What [print] writes: a float or a string. *)
Inductive printed : Type :=
| print_float (x : float)
| print_string (s : string).

Definition is_FrozenInstanceError (e : exn) : bool :=
  match e with
  | FrozenInstanceError _ => true
  | _ => false
  end.

(** One statement of a caller: building a scenario, building a simulator,
    running one, assigning to a field of a scenario. *)
Inductive statement : Type :=
| new_scenario (name : string) (mean_process_time mean_dta p_admit : option float)
| new_model (params : loc) (random_state : option Z)
| run_model (params rs : loc) (n_patients : Z)
| assign_field (scenario : loc) (a : assignment).

Section Script.
Context {G : Type} {K : BitGenerator G}.

(** [try: body] / [except <caught>: handler] *)
Definition try_except {A : Type} (body : M G A) (caught : exn -> bool)
    (handler : M G A) : M G A :=
  fun w =>
    match body w with
    | (Ok a, w1) => (Ok a, w1)
    | (Raise e, w1) => if caught e then handler w1 else (Raise e, w1)
    end.

(** Lines 129-132: for each scenario a model with seed 909, run once, its
    result appended to [results]. *)
Fixpoint collect_results (results : list (list float)) (scenarios : list loc)
    (N_PATIENTS : Z) : M G (list (list float)) :=
  match scenarios with
  | [] => ret results
  | scenario :: rest =>
      model <- SimpleMonteCarloED_init scenario (Some 909) ;;
      total_times_in_dept <- simulate model N_PATIENTS ;;
      collect_results (results ++ [total_times_in_dept]) rest N_PATIENTS
  end.

(** Lines 106-132 of the script, up to the plots: what it prints and the
    [results] it hands to the plots.  [N_PATIENTS] is the constant of line
    124. *)
Definition main (N_PATIENTS : Z) : M G (list printed * list (list float)) :=
  scenario0 <- ScenarioParameters_init "baseline" None None None ;;
  scenario1 <- ScenarioParameters_init "flu_pandemic" (Some 160.0%float)
                 (Some 180.0%float) (Some 0.7%float) ;;
  first <- read_params scenario0 ;;
  second <- read_params scenario1 ;;
  caught <- try_except
              (_ <- ScenarioParameters_setattr scenario0 (set_mean_process_time 10000) ;;
               ret [])
              is_FrozenInstanceError
              (ret [print_string "cannot change an immutable dataclass!"]) ;;
  results <- collect_results [] [scenario0; scenario1] N_PATIENTS ;;
  ret ([print_float (mean_process_time first); print_float (mean_process_time second)]
       ++ caught,
       results).

(** The store after one statement of a caller; an exception it raises is
    caught by the caller, who goes on. *)
Definition run_statement (st : statement) (w : world G) : world G :=
  match st with
  | new_scenario name a b c => snd (ScenarioParameters_init name a b c w)
  | new_model params random_state => snd (SimpleMonteCarloED_init params random_state w)
  | run_model params rs n_patients =>
      snd (simulate {| _params := params; _rs := rs |} n_patients w)
  | assign_field scenario a => snd (ScenarioParameters_setattr scenario a w)
  end.

Fixpoint run_statements (sts : list statement) (w : world G) : world G :=
  match sts with
  | [] => w
  | st :: rest => run_statements rest (run_statement st w)
  end.

(** Locations from [next_loc] on hold no configuration yet. *)
Definition params_fresh (w : world G) : Prop :=
  forall l, (next_loc w <= l)%nat -> params_heap w l = None.

End Script.

(** The first exception of a list of outcomes, or all their values. *)
Fixpoint all_ok {A : Type} (rs : list (result A)) : result (list A) :=
  match rs with
  | [] => Ok []
  | Ok a :: rest =>
      match all_ok rest with
      | Ok l => Ok (a :: l)
      | Raise e => Raise e
      end
  | Raise e :: _ => Raise e
  end.

(** ** A generator for examples

    Its state is a seed and the number of variates drawn so far; variates are
    read from short tables. *)

Definition table_exponential : list float := [0.25; 1.5; 0; 3]%float.

Definition table_uniform : list float := [0.125; 0.5; 0.875; 0.25; 0.75]%float.

Definition counting_index (g : Z * nat) (size : Z) : nat :=
  Z.to_nat ((fst g + Z.of_nat (snd g)) mod size).

#[export] Instance CountingGenerator : BitGenerator (Z * nat) := {|
  seed_state := fun s => (s, O);
  entropy_state := fun e => (e, O);
  standard_exponential := fun g =>
    (nth (counting_index g 4) table_exponential 0%float, (fst g, S (snd g)));
  random_binomial := fun n p g =>
    (if n <=? 0 then 0
     else if (nth (counting_index g 5) table_uniform 0 <? p)%float then 1 else 0,
     (fst g, S (snd g)));
  array_limit := 1000000%N
|}.

(** The two scenarios of the script (lines 107-108). *)
Definition baseline : ScenarioParameters :=
  ScenarioParameters_new "baseline" None None None.

Definition flu_pandemic : ScenarioParameters :=
  ScenarioParameters_new "flu_pandemic" (Some 160.0%float) (Some 180.0%float) (Some 0.7%float).

(** A store holding one configuration at location 0 and a simulator built on
    it with seed 909 (lines 125, 130). *)
Definition scenario_world (c : ScenarioParameters) : world (Z * nat) :=
  snd ((params <- alloc_params c ;; SimpleMonteCarloED_init params (Some 909))
         (empty_world (fun _ => 0))).

Definition scenario_model : SimpleMonteCarloED := {| _params := 0%nat; _rs := 1%nat |}.

(** A store with more in it: both scenarios (the baseline at location 1) and
    a simulator on the other scenario that has already run. *)
Definition busy_world : world (Z * nat) :=
  snd ((flu <- ScenarioParameters_init "flu_pandemic" (Some 160.0%float)
                 (Some 180.0%float) (Some 0.7%float) ;;
        base <- ScenarioParameters_init "baseline" None None None ;;
        model <- SimpleMonteCarloED_init flu (Some 7) ;;
        simulate model 5)
         (empty_world (fun n => Z.of_nat n))).


Definition negative_process_time : ScenarioParameters :=
  ScenarioParameters_new "negative_process_time" (Some (-1.0)%float) None None.



Definition nan_process_time : ScenarioParameters :=
  ScenarioParameters_new "nan_process_time" (Some nan) None None.

(** The scenario store with a second simulator, seed 7, on the same
    configuration. *)
Definition two_models_world : world (Z * nat) :=
  snd (SimpleMonteCarloED_init 0%nat (Some 7) (scenario_world baseline)).

Definition second_model : SimpleMonteCarloED := {| _params := 0%nat; _rs := 2%nat |}.

(** The statements that build the scenario store for the baseline. *)
Definition scenario_statements : list statement :=
  [new_scenario "baseline" None None None; new_model 0%nat (Some 909)].

(** What a caller might do between two constructions. *)
Definition some_statements : list statement :=
  [run_model 0%nat 2%nat 3; new_scenario "other" None None None;
   assign_field 0%nat (set_p_admit 1); new_model 3%nat None].
(** * Properties *)

(** Splitting a hypothesis [a && b = true] into its two halves. *)
Ltac andb_split H H1 H2 :=
  apply andb_true_iff in H; destruct H as [H1 H2].

(** ** Signs of binary64 sums and products *)

Lemma SFleb_zero x : SFleb (S754_zero false) x = sf_nonneg x.
Proof. destruct x as [s|s| |s m e]; try destruct s; reflexivity. Qed.

Lemma shr_1_sign mrs : 0 <= shr_m mrs -> 0 <= shr_m (shr_1 mrs).
Proof.
  destruct mrs as [m r s]; simpl; intros H.
  destruct m as [|p|p]; simpl; try lia; destruct p; simpl; lia.
Qed.

Lemma iter_shr_1_sign p :
  forall mrs, 0 <= shr_m mrs -> 0 <= shr_m (iter_pos shr_1 p mrs).
Proof. induction p; intros mrs H; simpl; auto using shr_1_sign. Qed.

Lemma shr_fexp_sign prec emax m e l :
  0 <= m -> 0 <= shr_m (fst (shr_fexp prec emax m e l)).
Proof.
  intros H. unfold shr_fexp, shr.
  assert (Hm : shr_m (shr_record_of_loc m l) = m) by (destruct l as [|[]]; reflexivity).
  destruct (fexp prec emax (Zdigits2 m + e) - e); simpl; try lia.
  apply iter_shr_1_sign. lia.
Qed.

Lemma round_nearest_even_sign m l : 0 <= m -> 0 <= round_nearest_even m l.
Proof.
  intros H. destruct l as [|[]]; simpl; try lia. destruct (Z.even m); lia.
Qed.

Lemma binary_round_aux_sign prec emax m e l :
  0 <= m -> sf_nonneg (binary_round_aux prec emax false m e l) = true.
Proof.
  intros H. unfold binary_round_aux.
  pose proof (shr_fexp_sign prec emax m e l H) as H1.
  destruct (shr_fexp prec emax m e l) as [mrs1 e1]. simpl in H1.
  pose proof (shr_fexp_sign prec emax _ e1 loc_Exact
                (round_nearest_even_sign _ (loc_of_shr_record mrs1) H1)) as H2.
  destruct (shr_fexp prec emax _ e1 loc_Exact) as [mrs2 e2]. simpl in H2.
  destruct (shr_m mrs2); try reflexivity; try lia.
  destruct (e2 <=? emax - prec); reflexivity.
Qed.

Lemma SFadd_sign prec emax x y :
  sf_nonneg x = true -> sf_nonneg y = true -> sf_nonneg (SFadd prec emax x y) = true.
Proof.
  destruct x as [sx|sx| |sx mx ex], y as [sy|sy| |sy my ey]; simpl; intros Hx Hy;
    try discriminate;
    try (destruct sx, sy; simpl in *; try discriminate; reflexivity);
    try (destruct sx; simpl in *; try discriminate; reflexivity);
    try (destruct sy; simpl in *; try discriminate; reflexivity).
  destruct sx, sy; simpl in *; try discriminate.
  destruct (shl_align mx ex (Z.min ex ey)) as [a b],
           (shl_align my ey (Z.min ex ey)) as [c d]; simpl.
  unfold binary_round. destruct (shl_align _ _ _) as [mz ez].
  apply binary_round_aux_sign. lia.
Qed.

Lemma SFmul_sign prec emax x y :
  sf_positive_finite x = true -> sf_nonneg y = true ->
  sf_nonneg (SFmul prec emax x y) = true.
Proof.
  destruct x as [sx|sx| |sx mx ex]; simpl; try discriminate.
  destruct sx; try discriminate. intros _.
  destruct y as [sy|sy| |sy my ey]; simpl; try discriminate;
    try (destruct sy; simpl; try discriminate; reflexivity).
  destruct sy; simpl; try discriminate. intros _.
  apply binary_round_aux_sign. lia.
Qed.

Lemma nonneg_spec x : nonneg x = sf_nonneg (Prim2SF x).
Proof. unfold nonneg. rewrite leb_spec. apply SFleb_zero. Qed.

Lemma positive_real_spec x :
  positive_real x = true -> sf_positive_finite (Prim2SF x) = true.
Proof.
  unfold positive_real. rewrite !ltb_spec.
  change (Prim2SF 0) with (S754_zero false).
  change (Prim2SF infinity) with (S754_infinity false).
  destruct (Prim2SF x) as [s|s| |s m e]; try destruct s; cbn; try discriminate; reflexivity.
Qed.

Lemma add_nonneg x y :
  nonneg x = true -> nonneg y = true -> nonneg (x + y)%float = true.
Proof. rewrite !nonneg_spec, add_spec. apply SFadd_sign. Qed.

Lemma mul_nonneg x y :
  positive_real x = true -> nonneg y = true -> nonneg (x * y)%float = true.
Proof.
  intros Hx. apply positive_real_spec in Hx. revert Hx.
  rewrite !nonneg_spec, mul_spec. apply SFmul_sign.
Qed.

(** A positive real passes the sign check of the samplers. *)
Lemma positive_real_accepted x arg :
  positive_real x = true -> check_constraint x arg CONS_NON_NEGATIVE = Ok tt.
Proof.
  intros Hx. pose proof (positive_real_spec x Hx) as Hs.
  unfold check_constraint, get_sign, is_zero, is_nan.
  assert (Hz : (x =? zero)%float = false).
  { rewrite eqb_spec. change (Prim2SF zero) with (S754_zero false).
    destruct (Prim2SF x) as [s|s| |[] m e]; try discriminate; reflexivity. }
  assert (Hl : (x <? zero)%float = false).
  { rewrite ltb_spec. change (Prim2SF zero) with (S754_zero false).
    destruct (Prim2SF x) as [s|s| |[] m e]; try discriminate; reflexivity. }
  rewrite Hz, Hl, andb_false_r. reflexivity.
Qed.

Lemma probability_accepted p arg :
  probability p = true -> check_constraint p arg CONS_BOUNDED_0_1 = Ok tt.
Proof.
  unfold probability, check_constraint. intros H.
  andb_split H H0 H1. rewrite H0, H1. reflexivity.
Qed.

Lemma probability_of_accepted p arg :
  check_constraint p arg CONS_BOUNDED_0_1 = Ok tt -> probability p = true.
Proof.
  unfold probability, check_constraint.
  destruct (0 <=? p)%float, (p <=? 1)%float; simpl; intros H;
    try discriminate; reflexivity.
Qed.



Lemma valid_configuration_accepted c :
  valid_configuration c = true -> sampler_accepts c = true.
Proof.
  unfold valid_configuration, sampler_accepts. intros H.
  andb_split H H Hp. andb_split H Hm Hd.
  rewrite (positive_real_accepted _ _ Hm), (positive_real_accepted _ _ Hd),
    (probability_accepted _ _ Hp).
  reflexivity.
Qed.

(** ** Arrays *)

Lemma select_by_index {A : Type} (d : A) (f : Z -> bool) :
  forall (a : list A) (v : list Z),
    length a = length v ->
    select a (map f v)
    = map (fun i => nth i a d) (filter (fun i => f (nth i v 0)) (seq 0 (length v))).
Proof.
  intros a v; revert a.
  induction v as [|k v IH]; intros [|x a] Hlen; simpl in *; try discriminate; auto.
  injection Hlen as Hlen.
  rewrite <- seq_shift, filter_map_swap, (IH a Hlen).
  destruct (f k); simpl; rewrite map_map; reflexivity.
Qed.

Lemma zip_add_map {I : Type} (f g : I -> float) (l : list I) :
  zip_add (map f l) (map g l) = map (fun i => (f i + g i)%float) l.
Proof. induction l as [|i l IH]; simpl; [reflexivity | now rewrite IH]. Qed.

Lemma np_getitem_eq {A : Type} (d : A) (a : list A) (v : list Z) (k : Z) :
  length a = length v ->
  np_getitem a (np_eq v k)
  = Ok (map (fun i => nth i a d) (filter (fun i => nth i v 0 =? k) (seq 0 (length v)))).
Proof.
  intros Hlen. unfold np_getitem, np_eq.
  rewrite length_map, Hlen, Nat.eqb_refl.
  now rewrite (select_by_index d (fun x => x =? k) a v Hlen).
Qed.

(** Lines 69-77 on three arrays of one length: the admitted patients' sums,
    then the other patients' process times, each in index order. *)
Lemma ed_times_by_index (pt : list float) (adm : list Z) (ad : list float) :
  length pt = length adm -> length ad = length adm ->
  ed_times pt adm ad
  = Ok (admitted_total_times pt adm ad (length adm)
        ++ not_admitted_total_times pt adm (length adm)).
Proof.
  intros Hpt Had. unfold ed_times.
  rewrite (np_getitem_eq 0%float pt adm 1 Hpt), (np_getitem_eq 0%float ad adm 1 Had),
    (np_getitem_eq 0%float pt adm 0 Hpt).
  unfold np_add. rewrite !length_map, Nat.eqb_refl, zip_add_map.
  reflexivity.
Qed.


Lemma not_admitted_negb (adm : list Z) (n : nat) :
  Forall (fun k => k = 0 \/ k = 1) adm -> n = length adm ->
  forall i, In i (seq 0 n) -> not_admitted adm i = negb (admitted adm i).
Proof.
  intros Hadm -> i Hi. apply in_seq in Hi.
  unfold not_admitted, admitted.
  assert (Hk : nth i adm 0 = 0 \/ nth i adm 0 = 1).
  { rewrite Forall_forall in Hadm. apply Hadm, nth_In. lia. }
  destruct Hk as [-> | ->]; reflexivity.
Qed.

Section Draws.
Context {G : Type} {K : BitGenerator G}.

Lemma fill_length {A : Type} (sample : G -> A * G) cnt :
  forall g, length (fst (fill sample cnt g)) = cnt.
Proof.
  induction cnt as [|k IH]; intros g; simpl; [reflexivity|].
  destruct (sample g) as [x g1]. specialize (IH g1).
  destruct (fill sample k g1) as [xs g2]. simpl in *. now rewrite IH.
Qed.

Lemma fill_advance {A : Type} (sample : G -> A * G) cnt :
  forall g, snd (fill sample cnt g) = advance sample cnt g.
Proof.
  induction cnt as [|k IH]; intros g; simpl; [reflexivity|].
  destruct (sample g) as [x g1] eqn:E. specialize (IH g1).
  destruct (fill sample k g1) as [xs g2]. simpl in *. now rewrite IH.
Qed.

Lemma fill_Forall {A : Type} (P : A -> Prop) (sample : G -> A * G) cnt :
  (forall g, P (fst (sample g))) ->
  forall g, Forall P (fst (fill sample cnt g)).
Proof.
  intros HP. induction cnt as [|k IH]; intros g; simpl; [constructor|].
  pose proof (HP g) as Hx. destruct (sample g) as [x g1]. specialize (IH g1).
  destruct (fill sample k g1) as [xs g2]. simpl in *. now constructor.
Qed.

(** What [np.empty] takes and what it refuses. *)
Lemma size_accepted_spec size :
  size_accepted size
  = (0 <=? size) && (size <? 2 ^ 60) && (size <=? Z.of_N array_limit).
Proof.
  unfold size_accepted, np_empty.
  change (2 ^ 63) with 9223372036854775808. change (2 ^ 60) with 1152921504606846976.
  destruct (Z.ltb_spec size 0), (Z.leb_spec 9223372036854775808 size),
    (Z.leb_spec 9223372036854775808 (8 * size)), (Z.ltb_spec (Z.of_N array_limit) size);
    destruct (Z.leb_spec 0 size), (Z.ltb_spec size 1152921504606846976),
      (Z.leb_spec size (Z.of_N array_limit));
    simpl; try reflexivity; exfalso; lia.
Qed.

Lemma np_empty_accepted size :
  size_accepted size = true -> np_empty size = Ok (Z.to_nat size).
Proof.
  unfold size_accepted, np_empty.
  destruct (size <? 0); [discriminate|]. destruct (2 ^ 63 <=? size); [discriminate|].
  destruct (2 ^ 63 <=? 8 * size); [discriminate|].
  destruct (Z.of_N array_limit <? size); [discriminate | reflexivity].
Qed.

Lemma np_empty_returns size cnt :
  np_empty size = Ok cnt ->
  size_accepted size = true /\ 0 <= size /\ cnt = Z.to_nat size.
Proof.
  intros H. assert (Ha : size_accepted size = true)
    by (unfold size_accepted; now rewrite H).
  rewrite (np_empty_accepted size Ha) in H. injection H as <-.
  split; [exact Ha|]. split; [|reflexivity].
  rewrite size_accepted_spec in Ha. andb_split Ha Ha H2. andb_split Ha H0 H1.
  now apply Z.leb_le.
Qed.


Lemma size_accepted_zero : size_accepted 0 = true.
Proof.
  rewrite size_accepted_spec. simpl.
  destruct (Z.leb_spec 0 (Z.of_N array_limit)); [reflexivity | lia].
Qed.

(** A draw that returns has passed the checks and filled [size] cells. *)
Lemma rs_exponential_returns scale size g xs g1 :
  rs_exponential scale size g = (Ok xs, g1) ->
  check_constraint scale "scale" CONS_NON_NEGATIVE = Ok tt
  /\ 0 <= size
  /\ xs = fst (fill (exponential_variate scale) (Z.to_nat size) g)
  /\ g1 = advance (exponential_variate scale) (Z.to_nat size) g.
Proof.
  unfold rs_exponential.
  destruct (check_constraint scale "scale" CONS_NON_NEGATIVE) as [[]|e]; [|discriminate].
  destruct (np_empty size) as [cnt|e] eqn:Hs; [|discriminate].
  apply np_empty_returns in Hs. destruct Hs as (_ & Hs & ->).
  rewrite <- fill_advance.
  destruct (fill (exponential_variate scale) (Z.to_nat size) g) as [ys g2].
  intros H; injection H as <- <-. auto.
Qed.

Lemma rs_binomial_returns p size g ks g1 :
  rs_binomial 1 p size g = (Ok ks, g1) ->
  probability p = true
  /\ 0 <= size
  /\ ks = fst (fill (random_binomial 1 p) (Z.to_nat size) g)
  /\ g1 = advance (random_binomial 1 p) (Z.to_nat size) g.
Proof.
  unfold rs_binomial.
  destruct (check_constraint p "p" CONS_BOUNDED_0_1) as [[]|e] eqn:Hp; [|discriminate].
  apply probability_of_accepted in Hp. simpl.
  destruct (np_empty size) as [cnt|e] eqn:Hs; [|discriminate].
  apply np_empty_returns in Hs. destruct Hs as (_ & Hs & ->).
  rewrite <- fill_advance.
  destruct (fill (random_binomial 1 p) (Z.to_nat size) g) as [ys g2].
  intros H; injection H as <- <-. auto.
Qed.

(** With arguments the checks accept, a draw returns. *)
Lemma rs_exponential_accepted scale size g :
  check_constraint scale "scale" CONS_NON_NEGATIVE = Ok tt ->
  size_accepted size = true ->
  rs_exponential scale size g
  = (Ok (fst (fill (exponential_variate scale) (Z.to_nat size) g)),
     advance (exponential_variate scale) (Z.to_nat size) g).
Proof.
  intros Hc Hs. unfold rs_exponential. rewrite Hc, (np_empty_accepted size Hs).
  rewrite <- fill_advance.
  now destruct (fill _ _ _).
Qed.

Lemma rs_binomial_accepted p size g :
  check_constraint p "p" CONS_BOUNDED_0_1 = Ok tt ->
  size_accepted size = true ->
  rs_binomial 1 p size g
  = (Ok (fst (fill (random_binomial 1 p) (Z.to_nat size) g)),
     advance (random_binomial 1 p) (Z.to_nat size) g).
Proof.
  intros Hc Hs. unfold rs_binomial. rewrite Hc, (np_empty_accepted size Hs). simpl.
  rewrite <- fill_advance.
  now destruct (fill _ _ _).
Qed.

End Draws.

(** ** Calls on the store *)

Section Store.
Context {G : Type} {K : BitGenerator G}.

Lemma upd_same {A : Type} (h : loc -> option A) l a : upd h l a l = Some a.
Proof. unfold upd. now rewrite Nat.eqb_refl. Qed.

Lemma upd_other {A : Type} (h : loc -> option A) l a l' :
  l' <> l -> upd h l a l' = h l'.
Proof. intros H. unfold upd. apply Nat.eqb_neq in H. now rewrite H. Qed.

Lemma only_generator_changed_refl l (w : world G) : only_generator_changed l w w.
Proof. repeat split. Qed.

Lemma only_generator_changed_trans l (w1 w2 w3 : world G) :
  only_generator_changed l w1 w2 -> only_generator_changed l w2 w3 ->
  only_generator_changed l w1 w3.
Proof.
  intros (Hp & Hr & Hn & He & Hq) (Hp' & Hr' & Hn' & He' & Hq').
  repeat split; try congruence.
  intros l' Hl. rewrite Hr', Hr; auto.
Qed.

Lemma only_generator_changed_put l g (w : world G) :
  only_generator_changed l w (set_rs_heap (upd (rs_heap w) l g) w).
Proof.
  repeat split. intros l' Hl. simpl. now apply upd_other.
Qed.

Lemma frames_bind {A B : Type} l (m : M G A) (k : A -> M G B) :
  frames l m -> (forall a, frames l (k a)) -> frames l (bind m k).
Proof.
  intros Hm Hk w. unfold bind. specialize (Hm w).
  destruct (m w) as [[a|e] w1]; simpl in *; [|assumption].
  eapply only_generator_changed_trans; [exact Hm | apply Hk].
Qed.

Lemma frames_lift {A : Type} l (r : result A) : frames l (@lift G A r).
Proof. intros w. apply only_generator_changed_refl. Qed.

Lemma frames_read_params l l' : frames l (@read_params G l').
Proof.
  intros w. unfold read_params.
  destruct (params_heap w l'); apply only_generator_changed_refl.
Qed.

Lemma frames_with_rs {A : Type} l (method : G -> result A * G) :
  frames l (with_rs l method).
Proof.
  intros w. unfold with_rs. destruct (rs_heap w l) as [g|].
  - destruct (method g) as [r g1]. apply only_generator_changed_put.
  - apply only_generator_changed_refl.
Qed.

Lemma frames_simulate self n : frames (_rs self) (simulate self n).
Proof.
  unfold simulate, _simulate_ed_process_times, _simulate_admission, _simulate_dta_times.
  repeat (apply frames_bind; [|intros ?]);
    auto using frames_read_params, frames_with_rs, frames_lift.
Qed.

(** One draw method on a live simulator. *)
Lemma draw_on_store {A : Type} (method : ScenarioParameters -> G -> result A * G)
    self w c g :
  live self w c g ->
  exists w1,
    (params <- read_params (_params self) ;; with_rs (_rs self) (method params)) w
    = (fst (method c g), w1)
    /\ live self w1 c (snd (method c g)).
Proof.
  intros [Hc Hg]. unfold bind, read_params, with_rs. rewrite Hc, Hg.
  destruct (method c g) as [r g1]. eexists; split; [reflexivity|].
  split; simpl; [assumption | apply upd_same].
Qed.

(** [simulate] on a live simulator is its three draws on the generator,
    followed by the array arithmetic. *)
Lemma simulate_on_store self n w c g :
  live self w c g ->
  exists w1,
    simulate self n w = (outcome_of_draws (fst (three_draws c n g)), w1)
    /\ live self w1 c (snd (three_draws c n g)).
Proof.
  intros Hl. unfold simulate, _simulate_ed_process_times, _simulate_admission,
    _simulate_dta_times, three_draws.
  unfold bind at 1.
  destruct (draw_on_store (fun p => rs_exponential (mean_process_time p) n) self w c g Hl)
    as (w1 & -> & Hl1).
  destruct (rs_exponential (mean_process_time c) n g) as [[pt|e] g1]; simpl in *;
    [|eauto].
  unfold bind at 1.
  destruct (draw_on_store (fun p => rs_binomial 1 (p_admit p) n) self w1 c g1 Hl1)
    as (w2 & -> & Hl2).
  destruct (rs_binomial 1 (p_admit c) n g1) as [[adm|e] g2]; simpl in *; [|eauto].
  unfold bind at 1.
  destruct (draw_on_store (fun p => rs_exponential (mean_dta p) n) self w2 c g2 Hl2)
    as (w3 & -> & Hl3).
  destruct (rs_exponential (mean_dta c) n g2) as [[ad|e] g3]; simpl in *; [|eauto].
  exists w3. split; [reflexivity | assumption].
Qed.

(** The three draws with arguments the samplers accept. *)
Lemma three_draws_accepted c n g :
  sampler_accepts c = true -> size_accepted n = true ->
  let cnt := Z.to_nat n in
  let g1 := advance (exponential_variate (mean_process_time c)) cnt g in
  let g2 := advance (random_binomial 1 (p_admit c)) cnt g1 in
  three_draws c n g
  = (Ok (fst (fill (exponential_variate (mean_process_time c)) cnt g),
         fst (fill (random_binomial 1 (p_admit c)) cnt g1),
         fst (fill (exponential_variate (mean_dta c)) cnt g2)),
     advance (exponential_variate (mean_dta c)) cnt g2).
Proof.
  unfold sampler_accepts. intros H Hn.
  andb_split H H H3. andb_split H H1 H2.
  assert (E : forall r : result unit, is_ok r = true -> r = Ok tt)
    by (intros [[]|e] Hr; [reflexivity | discriminate]).
  apply E in H1, H2, H3. simpl. unfold three_draws.
  rewrite (rs_exponential_accepted _ _ _ H1 Hn), (rs_binomial_accepted _ _ _ H2 Hn),
    (rs_exponential_accepted _ _ _ H3 Hn).
  reflexivity.
Qed.

(** The three draws, when all of them return. *)
Lemma three_draws_returns c n g pt adm ad g3 :
  three_draws c n g = (Ok (pt, adm, ad), g3) ->
  let cnt := Z.to_nat n in
  let g1 := advance (exponential_variate (mean_process_time c)) cnt g in
  let g2 := advance (random_binomial 1 (p_admit c)) cnt g1 in
  0 <= n /\ sampler_accepts c = true
  /\ pt = fst (fill (exponential_variate (mean_process_time c)) cnt g)
  /\ adm = fst (fill (random_binomial 1 (p_admit c)) cnt g1)
  /\ ad = fst (fill (exponential_variate (mean_dta c)) cnt g2)
  /\ g3 = advance (exponential_variate (mean_dta c)) cnt g2.
Proof.
  unfold three_draws.
  destruct (rs_exponential (mean_process_time c) n g) as [[pt'|e] g1'] eqn:E1;
    [|discriminate].
  destruct (rs_binomial 1 (p_admit c) n g1') as [[adm'|e] g2'] eqn:E2; [|discriminate].
  destruct (rs_exponential (mean_dta c) n g2') as [[ad'|e] g3'] eqn:E3; [|discriminate].
  intros H; injection H as <- <- <- <-.
  apply rs_exponential_returns in E1. destruct E1 as (C1 & Hn & -> & ->).
  apply rs_binomial_returns in E2. destruct E2 as (C2 & _ & -> & ->).
  apply rs_exponential_returns in E3. destruct E3 as (C3 & _ & -> & ->).
  simpl. repeat split; auto.
  unfold sampler_accepts. rewrite C1, C3, (probability_accepted _ _ C2). reflexivity.
Qed.

End Store.

(** ** The output of [simulate] *)

Section Simulate.
Context {G : Type} {K : BitGenerator G}.

(** [simulate] on a live simulator whose three draws return. *)
Lemma simulate_of_draws self n w c g pt adm ad g3 :
  live self w c g ->
  three_draws c n g = (Ok (pt, adm, ad), g3) ->
  exists w1,
    simulate self n w
    = (Ok (admitted_total_times pt adm ad (Z.to_nat n)
           ++ not_admitted_total_times pt adm (Z.to_nat n)), w1)
    /\ live self w1 c g3.
Proof.
  intros Hl Hd. destruct (simulate_on_store self n w c g Hl) as (w1 & Hs & Hl1).
  rewrite Hd in Hs, Hl1. simpl in Hs, Hl1.
  destruct (three_draws_returns _ _ _ _ _ _ _ Hd) as (Hn & _ & Hpt & Hadm & Had & _).
  assert (Lpt : length pt = Z.to_nat n) by (rewrite Hpt; apply fill_length).
  assert (Ladm : length adm = Z.to_nat n) by (rewrite Hadm; apply fill_length).
  assert (Lad : length ad = Z.to_nat n) by (rewrite Had; apply fill_length).
  rewrite ed_times_by_index, Ladm in Hs by congruence.
  eauto.
Qed.

(** A call that returns has drawn three arrays. *)
Lemma simulate_returns_inv self n w c g out w1 :
  live self w c g ->
  simulate self n w = (Ok out, w1) ->
  exists pt adm ad g3,
    three_draws c n g = (Ok (pt, adm, ad), g3)
    /\ out = admitted_total_times pt adm ad (Z.to_nat n)
             ++ not_admitted_total_times pt adm (Z.to_nat n)
    /\ live self w1 c g3.
Proof.
  intros Hl Hs. destruct (simulate_on_store self n w c g Hl) as (w2 & Hs2 & Hl2).
  rewrite Hs in Hs2. injection Hs2 as Ho <-.
  destruct (three_draws c n g) as [[[[pt adm] ad]|e] g3] eqn:Hd; simpl in Ho;
    [|discriminate].
  destruct (simulate_of_draws self n w c g pt adm ad g3 Hl Hd) as (w3 & Hs3 & _).
  rewrite Hs in Hs3. injection Hs3 as -> _.
  exists pt, adm, ad, g3. auto.
Qed.

(** With arguments the samplers accept, the call returns. *)
Lemma simulate_returns self n w c g :
  live self w c g -> sampler_accepts c = true -> size_accepted n = true ->
  exists out w1, simulate self n w = (Ok out, w1).
Proof.
  intros Hl Ha Hn. pose proof (three_draws_accepted c n g Ha Hn) as Hd. simpl in Hd.
  destruct (simulate_of_draws _ _ _ _ _ _ _ _ _ Hl Hd) as (w1 & Hs & _). eauto.
Qed.

Lemma admissions_zero_or_one p cnt g :
  bernoulli_kernel -> probability p = true ->
  Forall (fun k => k = 0 \/ k = 1) (fst (fill (random_binomial 1 p) cnt g)).
Proof. intros Hk Hp. apply fill_Forall. intros g'. now apply Hk. Qed.

Lemma total_times_length pt adm ad :
  Forall (fun k => k = 0 \/ k = 1) adm ->
  length (admitted_total_times pt adm ad (length adm)
          ++ not_admitted_total_times pt adm (length adm)) = length adm.
Proof.
  intros Hadm. unfold admitted_total_times, not_admitted_total_times.
  rewrite length_app, !length_map.
  rewrite (filter_ext_in _ _ _ (not_admitted_negb adm _ Hadm eq_refl)).
  now rewrite filter_length, length_seq.
Qed.

(** C1.  For every [n_patients >= 1] and every configuration: when the three
    draws of the call return [process_times], [admissions] and
    [admit_delays], [simulate] returns the admitted patients' totals
    [process_times[i] + admit_delays[i]] (the indices with admission 1, in
    index order) followed by the other patients' [process_times[i]] (the
    indices with admission 0, in index order); and replacing the delays
    drawn at indices that are not admitted changes nothing in the output. *)
Theorem simulate_admitted_then_not_admitted self n w c g pt g1 adm g2 ad g3 :
  1 <= n ->
  live self w c g ->
  rs_exponential (mean_process_time c) n g = (Ok pt, g1) ->
  rs_binomial 1 (p_admit c) n g1 = (Ok adm, g2) ->
  rs_exponential (mean_dta c) n g2 = (Ok ad, g3) ->
  fst (simulate self n w)
  = Ok (admitted_total_times pt adm ad (Z.to_nat n)
        ++ not_admitted_total_times pt adm (Z.to_nat n))
  /\ forall ad' : list float,
       length ad' = length ad ->
       (forall i, admitted adm i = true -> nth i ad' 0%float = nth i ad 0%float) ->
       ed_times pt adm ad' = ed_times pt adm ad.
Proof.
  intros _ Hl E1 E2 E3.
  assert (Hd : three_draws c n g = (Ok (pt, adm, ad), g3))
    by (unfold three_draws; now rewrite E1, E2, E3).
  split.
  - destruct (simulate_of_draws _ _ _ _ _ _ _ _ _ Hl Hd) as (w1 & -> & _). reflexivity.
  - intros ad' Hlen Hagree.
    destruct (three_draws_returns _ _ _ _ _ _ _ Hd) as (_ & _ & Hpt & Hadm & Had & _).
    assert (Lpt : length pt = length adm) by (rewrite Hpt, Hadm, !fill_length; reflexivity).
    assert (Lad : length ad = length adm) by (rewrite Had, Hadm, !fill_length; reflexivity).
    rewrite !ed_times_by_index by congruence.
    unfold admitted_total_times. do 2 f_equal.
    apply map_ext_in. intros i Hi. apply filter_In in Hi. destruct Hi as [_ Hi].
    now rewrite (Hagree i Hi).
Qed.

(** C2.  For every non-negative [n] and every configuration, a sequence
    returned by [simulate(n)] has length exactly [n]; and the call does
    return one whenever the samplers accept the configuration and numpy
    allocates arrays of [n] cells. *)
Theorem simulate_length self n w c g :
  0 <= n ->
  live self w c g ->
  bernoulli_kernel ->
  (forall out w1, simulate self n w = (Ok out, w1) -> Z.of_nat (length out) = n)
  /\ (sampler_accepts c = true -> size_accepted n = true ->
      exists out w1, simulate self n w = (Ok out, w1)).
Proof.
  intros Hn Hl Hk. split.
  - intros out w1 Hs.
    destruct (simulate_returns_inv _ _ _ _ _ _ _ Hl Hs) as (pt & adm & ad & g3 & Hd & -> & _).
    destruct (three_draws_returns _ _ _ _ _ _ _ Hd) as (_ & Ha & _ & Hadm & _).
    assert (Hp : probability (p_admit c) = true).
    { unfold sampler_accepts in Ha. andb_split Ha Ha H3. andb_split Ha H1 Ha.
      apply (probability_of_accepted _ "p").
      destruct (check_constraint (p_admit c) "p" CONS_BOUNDED_0_1) as [[]|]; easy. }
    assert (Ladm : length adm = Z.to_nat n) by (rewrite Hadm; apply fill_length).
    rewrite <- Ladm, total_times_length, Ladm.
    + lia.
    + rewrite Hadm. now apply admissions_zero_or_one.
  - intros Ha Hsz. eapply simulate_returns; eauto.
Qed.

End Simulate.

(** ** Construction, determinism, sign and frame *)

Section Runs.
Context {G : Type} {K : BitGenerator G}.

(** [__init__] with a seed: the generator is a new object in the state of
    that seed, or the seed is out of range and nothing is built. *)
Lemma init_seeded l s (w : world G) :
  seed_in_range s = true ->
  exists w1,
    SimpleMonteCarloED_init l (Some s) w = (Ok {| _params := l; _rs := next_loc w |}, w1)
    /\ params_heap w1 = params_heap w
    /\ rs_heap w1 (next_loc w) = Some (seed_state s)
    /\ (forall l', l' <> next_loc w -> rs_heap w1 l' = rs_heap w l')
    /\ next_loc w1 = S (next_loc w).
Proof.
  intros Hs.
  unfold SimpleMonteCarloED_init, RandomState, bind. rewrite Hs.
  unfold alloc_rs, ret. eexists; split; [reflexivity|]. simpl.
  repeat split; [apply upd_same | intros l' Hl; now apply upd_other].
Qed.

Lemma init_seed_out_of_range l s (w : world G) :
  seed_in_range s = false ->
  SimpleMonteCarloED_init l (Some s) w
  = (Raise (ValueError "Seed must be between 0 and 2**32 - 1"), w).
Proof.
  intros Hs.
  unfold SimpleMonteCarloED_init, RandomState, bind. now rewrite Hs.
Qed.

(** [__init__] without a seed: the generator starts from the next word of
    operating-system entropy. *)
Lemma init_unseeded l (w : world G) :
  exists w1,
    SimpleMonteCarloED_init l None w = (Ok {| _params := l; _rs := next_loc w |}, w1)
    /\ params_heap w1 = params_heap w
    /\ rs_heap w1 (next_loc w) = Some (entropy_state (os_entropy w (entropy_pos w)))
    /\ entropy_pos w1 = S (entropy_pos w).
Proof.
  unfold SimpleMonteCarloED_init, RandomState, bind, read_entropy, alloc_rs, ret.
  eexists; split; [reflexivity|]. simpl. repeat split. apply upd_same.
Qed.

Lemma run_once_seeded l s n (w : world G) c :
  params_heap w l = Some c ->
  fst (run_once l (Some s) n w)
  = if seed_in_range s
    then outcome_of_draws (fst (three_draws c n (seed_state s)))
    else Raise (ValueError "Seed must be between 0 and 2**32 - 1").
Proof.
  intros Hc. unfold run_once, bind. destruct (seed_in_range s) eqn:Hs.
  - destruct (init_seeded l s w Hs) as (w1 & -> & Hp & Hr & _).
    assert (Hl : live {| _params := l; _rs := next_loc w |} w1 c (seed_state s))
      by (split; simpl; [now rewrite Hp | assumption]).
    destruct (simulate_on_store _ n _ _ _ Hl) as (w2 & -> & _). reflexivity.
  - now rewrite (init_seed_out_of_range l s w Hs).
Qed.

(** C3.  For every seed [s], configuration [c] and [n]: a simulator built as
    [SimpleMonteCarloED(c, s)] and run once gives the same outcome in any two
    stores that hold [c]; and two such simulators built in one store and run
    once each return the same sequence. *)
Theorem seeded_runs_agree (s : Z) (c : ScenarioParameters) (n : Z) :
  (forall (w1 w2 : world G) l1 l2,
      params_heap w1 l1 = Some c -> params_heap w2 l2 = Some c ->
      fst (run_once l1 (Some s) n w1) = fst (run_once l2 (Some s) n w2))
  /\ (forall (w : world G) l out1 out2 w',
         params_heap w l = Some c ->
         run_twice l (Some s) n w = (Ok (out1, out2), w') -> out1 = out2).
Proof.
  split.
  - intros w1 w2 l1 l2 H1 H2.
    now rewrite (run_once_seeded l1 s n w1 c H1), (run_once_seeded l2 s n w2 c H2).
  - intros w l out1 out2 w' Hc. unfold run_twice.
    destruct (seed_in_range s) eqn:Hs.
    2:{ unfold bind at 1. rewrite (init_seed_out_of_range l s w Hs). discriminate. }
    unfold bind at 1.
    destruct (init_seeded l s w Hs) as (wa & -> & Hpa & Hra & Hoa & Hna).
    unfold bind at 1.
    destruct (init_seeded l s wa Hs) as (wb & -> & Hpb & Hrb & Hob & Hnb).
    rewrite Hna in *.
    set (m1 := {| _params := l; _rs := next_loc w |}).
    set (m2 := {| _params := l; _rs := S (next_loc w) |}).
    assert (L1 : live m1 wb c (seed_state s)).
    { split; simpl; [now rewrite Hpb, Hpa|]. rewrite Hob by lia. assumption. }
    unfold bind at 1.
    destruct (simulate_on_store m1 n wb c _ L1) as (wc & E1 & _).
    pose proof (frames_simulate m1 n wb) as (Hpc & Hoc & _). rewrite E1 in *. simpl in Hpc, Hoc.
    destruct (outcome_of_draws (fst (three_draws c n (seed_state s)))) as [o1|e] eqn:Ho;
      [|discriminate].
    assert (L2 : live m2 wc c (seed_state s)).
    { split; simpl; [now rewrite Hpc, Hpb, Hpa|]. rewrite Hoc by lia. assumption. }
    unfold bind at 1.
    destruct (simulate_on_store m2 n wc c _ L2) as (wd & -> & _). rewrite Ho.
    unfold ret. intros H; injection H as <- <- _. reflexivity.
Qed.

Lemma nth_nonneg (l : list float) i :
  Forall (fun x => nonneg x = true) l -> nonneg (nth i l 0%float) = true.
Proof.
  intros H. destruct (nth_in_or_default i l 0%float) as [Hi | ->]; [|reflexivity].
  rewrite Forall_forall in H. now apply H.
Qed.

Lemma exponential_draw_nonneg scale cnt g :
  exponential_kernel_nonneg -> positive_real scale = true ->
  Forall (fun x => nonneg x = true) (fst (fill (exponential_variate scale) cnt g)).
Proof.
  intros Hk Hs. apply fill_Forall. intros g'. unfold exponential_variate.
  specialize (Hk g'). destruct (standard_exponential g') as [e g1]. simpl in *.
  now apply mul_nonneg.
Qed.

(** C4.  For every valid configuration (positive means, [p_admit] in [0,1])
    and every [n >= 0], every value of a sequence returned by [simulate(n)]
    is [>= 0]; and the call does return one whenever numpy allocates arrays
    of [n] cells. *)
Theorem simulate_nonneg self n w c g :
  valid_configuration c = true ->
  0 <= n ->
  live self w c g ->
  exponential_kernel_nonneg ->
  (forall out w1, simulate self n w = (Ok out, w1) ->
                  Forall (fun x => nonneg x = true) out)
  /\ (size_accepted n = true -> exists out w1, simulate self n w = (Ok out, w1)).
Proof.
  intros Hv Hn Hl Hk. split.
  - intros out w1 Hs.
    destruct (simulate_returns_inv _ _ _ _ _ _ _ Hl Hs) as (pt & adm & ad & g3 & Hd & -> & _).
    destruct (three_draws_returns _ _ _ _ _ _ _ Hd) as (_ & _ & Hpt & _ & Had & _).
    unfold valid_configuration in Hv.
    andb_split Hv Hv Hp. andb_split Hv Hm Hdta.
    assert (Npt : Forall (fun x => nonneg x = true) pt)
      by (rewrite Hpt; now apply exponential_draw_nonneg).
    assert (Nad : Forall (fun x => nonneg x = true) ad)
      by (rewrite Had; now apply exponential_draw_nonneg).
    unfold admitted_total_times, not_admitted_total_times.
    apply Forall_app. split; apply Forall_map, Forall_forall; intros i _.
    + apply add_nonneg; now apply nth_nonneg.
    + now apply nth_nonneg.
  - intros Hsz. eapply simulate_returns; eauto using valid_configuration_accepted.
Qed.

(** C5.  For every [ScenarioParameters] instance in the store, every
    assignment to one of its fields ([name], [mean_process_time], [mean_dta],
    [p_admit]) raises [FrozenInstanceError], and the store, and so every
    field of the instance, is as before the attempt. *)
Theorem frozen_assignment_raises (w : world G) l c (a : assignment) :
  params_heap w l = Some c ->
  (exists msg, ScenarioParameters_setattr l a w = (Raise (FrozenInstanceError msg), w))
  /\ params_heap (snd (ScenarioParameters_setattr l a w)) l = Some c.
Proof.
  intros Hc. unfold ScenarioParameters_setattr, dataclass_setattr.
  rewrite Hc. simpl. split; [eexists; reflexivity | assumption].
Qed.

(** C8.  For every call [simulate(n)], nothing in the store but the
    generator of the simulator differs after the call: the configurations
    (the one the simulator refers to among them) and every other generator
    are as before. *)
Theorem simulate_only_advances_generator self n (w : world G) :
  only_generator_changed (_rs self) w (snd (simulate self n w))
  /\ forall l c, params_heap w l = Some c ->
                 params_heap (snd (simulate self n w)) l = Some c.
Proof.
  pose proof (frames_simulate self n w) as H. split; [exact H|].
  destruct H as (Hp & _). intros l c Hc. now rewrite Hp.
Qed.

End Runs.

(** ** Rejected arguments, the order of the draws, and the admissions *)

Section Rejections.
Context {G : Type} {K : BitGenerator G}.

Lemma is_ok_check (r : result unit) : is_ok r = true -> r = Ok tt.
Proof. destruct r as [[]|e]; [reflexivity | discriminate]. Qed.

Lemma rs_exponential_scale_rejected scale size g :
  scale_rejected scale = true ->
  exists msg, rs_exponential scale size g = (Raise (ValueError msg), g).
Proof.
  unfold scale_rejected, rs_exponential, check_constraint.
  destruct (negb (is_nan scale) && get_sign scale); simpl; [eauto | discriminate].
Qed.


Lemma rs_exponential_negative_size scale size g :
  size < 0 ->
  exists msg, rs_exponential scale size g = (Raise (ValueError msg), g).
Proof.
  intros Hn. destruct (scale_rejected scale) eqn:Hs.
  - now apply rs_exponential_scale_rejected.
  - unfold scale_rejected in Hs. apply negb_false_iff, is_ok_check in Hs.
    unfold rs_exponential, np_empty. rewrite Hs.
    apply Z.ltb_lt in Hn. rewrite Hn. eauto.
Qed.



Lemma three_draws_negative_size c n g :
  n < 0 -> exists msg, three_draws c n g = (Raise (ValueError msg), g).
Proof.
  intros Hn. unfold three_draws.
  destruct (rs_exponential_negative_size (mean_process_time c) n g Hn) as (msg & ->).
  eauto.
Qed.








End Rejections.

Section Order.
Context {G : Type} {K : BitGenerator G}.

(** C7.  For every call [simulate(n)] whose draws return: the draws are made
    in the order [process_times], [admissions], [admit_delays]; each returns
    [n] values and leaves the generator exactly [n] variates further,
    whatever the admissions are; the call leaves the generator where the
    third draw left it.  A simulator built with seed [s] starts from the
    state of that seed, so the seed and [n] determine the three arrays. *)
Theorem draws_in_fixed_order (c : ScenarioParameters) (n : Z) :
  (forall self (w : world G) g pt g1 adm g2 ad g3,
      live self w c g ->
      rs_exponential (mean_process_time c) n g = (Ok pt, g1) ->
      rs_binomial 1 (p_admit c) n g1 = (Ok adm, g2) ->
      rs_exponential (mean_dta c) n g2 = (Ok ad, g3) ->
      let cnt := Z.to_nat n in
      (pt = fst (fill (exponential_variate (mean_process_time c)) cnt g)
       /\ Z.of_nat (length pt) = n
       /\ g1 = advance (exponential_variate (mean_process_time c)) cnt g)
      /\ (adm = fst (fill (random_binomial 1 (p_admit c)) cnt g1)
          /\ Z.of_nat (length adm) = n
          /\ g2 = advance (random_binomial 1 (p_admit c)) cnt g1)
      /\ (ad = fst (fill (exponential_variate (mean_dta c)) cnt g2)
          /\ Z.of_nat (length ad) = n
          /\ g3 = advance (exponential_variate (mean_dta c)) cnt g2)
      /\ exists w1,
          simulate self n w = (ed_times pt adm ad, w1) /\ live self w1 c g3)
  /\ (forall s l (w : world G),
         seed_in_range s = true -> params_heap w l = Some c ->
         exists model w1,
           SimpleMonteCarloED_init l (Some s) w = (Ok model, w1)
           /\ live model w1 c (seed_state s)).
Proof.
  split.
  - intros self w g pt g1 adm g2 ad g3 Hl E1 E2 E3 cnt.
    assert (Hd : three_draws c n g = (Ok (pt, adm, ad), g3))
      by (unfold three_draws; now rewrite E1, E2, E3).
    destruct (simulate_on_store self n w c g Hl) as (w1 & Hs & Hl1).
    rewrite Hd in Hs, Hl1. simpl in Hs, Hl1.
    apply rs_exponential_returns in E1. destruct E1 as (_ & Hn & Hpt & Hg1).
    apply rs_binomial_returns in E2. destruct E2 as (_ & _ & Hadm & Hg2).
    apply rs_exponential_returns in E3. destruct E3 as (_ & _ & Had & Hg3).
    assert (Hcnt : Z.of_nat cnt = n) by (unfold cnt; lia).
    repeat split; try assumption.
    + rewrite Hpt, fill_length. exact Hcnt.
    + rewrite Hadm, fill_length. exact Hcnt.
    + rewrite Had, fill_length. exact Hcnt.
    + eauto.
  - intros s l w Hs Hc.
    destruct (init_seeded l s w Hs) as (w1 & E & Hp & Hr & _).
    exists {| _params := l; _rs := next_loc w |}, w1. split; [exact E|].
    split; simpl; [now rewrite Hp | exact Hr].
Qed.

(** C9, as the code has it.  For every configuration that the samplers
    accept, [simulate(0)] returns the empty sequence, raises nothing and
    leaves the generator where it was. *)
Theorem simulate_zero_patients self (w : world G) c g :
  live self w c g ->
  sampler_accepts c = true ->
  exists w1, simulate self 0 w = (Ok [], w1) /\ live self w1 c g.
Proof.
  intros Hl Ha.
  pose proof (three_draws_accepted c 0 g Ha size_accepted_zero) as Hd. simpl in Hd.
  destruct (simulate_of_draws _ _ _ _ _ _ _ _ _ Hl Hd) as (w1 & Hs & Hl1).
  exists w1. split; [exact Hs | exact Hl1].
Qed.

Lemma np_eq_complement adm :
  Forall (fun k => k = 0 \/ k = 1) adm ->
  np_eq adm 0 = map negb (np_eq adm 1).
Proof.
  intros H. unfold np_eq. rewrite map_map. apply map_ext_in.
  intros k Hk. rewrite Forall_forall in H.
  destruct (H k Hk) as [-> | ->]; reflexivity.
Qed.




End Order.

(** ** The script's scenarios on the example generator *)

Lemma counting_bernoulli : @bernoulli_kernel _ CountingGenerator.
Proof.
  intros p g _. cbn.
  match goal with |- context [(?u <? p)%float] => destruct (u <? p)%float end; auto.
Qed.

Lemma counting_exponential_nonneg : @exponential_kernel_nonneg _ CountingGenerator.
Proof.
  intros g. simpl. generalize (counting_index g 4). intros i.
  do 4 (destruct i as [|i]; [reflexivity|]). destruct i; reflexivity.
Qed.

Lemma scenario_live c : live scenario_model (scenario_world c) c (909, O).
Proof. split; reflexivity. Qed.

(** The baseline scenario, six patients: patients 0, 3 and 5 are admitted. *)
Lemma simulate_admitted_then_not_admitted_baseline :
  1 <= 6
  /\ live scenario_model (scenario_world baseline) baseline (909, O)
  /\ fst (simulate scenario_model 6 (scenario_world baseline))
     = Ok [405; 67.5; 0; 0; 450; 225]%float.
Proof.
  split; [lia|]. split; [apply scenario_live|].
  exact (proj1 (simulate_admitted_then_not_admitted
                  scenario_model 6 (scenario_world baseline) baseline (909, O)
                  [225; 0; 450; 37.5; 225; 0]%float (909, 6%nat)
                  [1; 0; 0; 1; 0; 1] (909, 12%nat)
                  [180; 0; 360; 30; 180; 0]%float (909, 18%nat)
                  ltac:(lia) (scenario_live baseline) eq_refl eq_refl eq_refl)).
Defined.

Lemma simulate_length_flu_pandemic :
  0 <= 7
  /\ sampler_accepts flu_pandemic = true
  /\ size_accepted 7 = true
  /\ exists out w1,
       simulate scenario_model 7 (scenario_world flu_pandemic) = (Ok out, w1)
       /\ Z.of_nat (length out) = 7.
Proof.
  split; [lia|]. split; [reflexivity|]. split; [reflexivity|].
  destruct (simulate_length scenario_model 7 (scenario_world flu_pandemic) flu_pandemic
              (909, O) ltac:(lia) (scenario_live flu_pandemic) counting_bernoulli)
    as [Hlen Hret].
  destruct (Hret eq_refl eq_refl) as (out & w1 & E).
  exists out, w1. split; [exact E | exact (Hlen out w1 E)].
Defined.

Lemma seeded_runs_agree_baseline :
  params_heap (scenario_world baseline) 0%nat = Some baseline
  /\ params_heap busy_world 1%nat = Some baseline
  /\ fst (run_once 0%nat (Some 909) 6 (scenario_world baseline))
     = fst (run_once 1%nat (Some 909) 6 busy_world)
  /\ fst (run_twice 1%nat (Some 909) 6 busy_world)
     = Ok ([405; 67.5; 0; 0; 450; 225]%float, [405; 67.5; 0; 0; 450; 225]%float).
Proof.
  split; [reflexivity|]. split; [reflexivity|]. split.
  - exact (proj1 (seeded_runs_agree 909 baseline 6)
             (scenario_world baseline) busy_world 0%nat 1%nat eq_refl eq_refl).
  - reflexivity.
Defined.

Lemma simulate_nonneg_baseline :
  valid_configuration baseline = true
  /\ 0 <= 6
  /\ exists out w1,
       simulate scenario_model 6 (scenario_world baseline) = (Ok out, w1)
       /\ Forall (fun x => nonneg x = true) out.
Proof.
  split; [reflexivity|]. split; [lia|].
  destruct (simulate_nonneg scenario_model 6 (scenario_world baseline) baseline (909, O)
              eq_refl ltac:(lia) (scenario_live baseline) counting_exponential_nonneg)
    as [Hpos Hret].
  destruct (Hret eq_refl) as (out & w1 & E).
  exists out, w1. split; [exact E | exact (Hpos out w1 E)].
Defined.

(** Line 118 of the script: [scenarios[0].mean_process_time = 10_000]. *)
Lemma frozen_assignment_raises_baseline :
  params_heap (scenario_world baseline) 0%nat = Some baseline
  /\ (exists msg,
         ScenarioParameters_setattr 0%nat (set_mean_process_time 10000) (scenario_world baseline)
         = (Raise (FrozenInstanceError msg), scenario_world baseline))
  /\ mean_process_time baseline = 150%float.
Proof.
  split; [reflexivity|]. split; [|reflexivity].
  exact (proj1 (frozen_assignment_raises (scenario_world baseline) 0%nat baseline
                  (set_mean_process_time 10000) eq_refl)).
Defined.



Lemma draws_in_fixed_order_baseline :
  live scenario_model (scenario_world baseline) baseline (909, O)
  /\ (exists w1,
         simulate scenario_model 6 (scenario_world baseline)
         = (ed_times [225; 0; 450; 37.5; 225; 0]%float [1; 0; 0; 1; 0; 1]
                     [180; 0; 360; 30; 180; 0]%float, w1)
         /\ live scenario_model w1 baseline (909, 18%nat))
  /\ exists model w1,
       SimpleMonteCarloED_init 0%nat (Some 909) (scenario_world baseline) = (Ok model, w1)
       /\ live model w1 baseline (909, O).
Proof.
  split; [apply scenario_live|]. split.
  - exact (proj2 (proj2 (proj2
             (proj1 (draws_in_fixed_order baseline 6)
                scenario_model (scenario_world baseline) (909, O)
                [225; 0; 450; 37.5; 225; 0]%float (909, 6%nat)
                [1; 0; 0; 1; 0; 1] (909, 12%nat)
                [180; 0; 360; 30; 180; 0]%float (909, 18%nat)
                (scenario_live baseline) eq_refl eq_refl eq_refl)))).
  - exact (proj2 (draws_in_fixed_order baseline 6) 909 0%nat (scenario_world baseline)
             eq_refl eq_refl).
Defined.

(** A negative [mean_process_time] makes [simulate(0)] raise. *)
Lemma simulate_zero_patients_raises :
  fst (simulate scenario_model 0 (scenario_world negative_process_time))
  = Raise (ValueError "scale < 0")
  /\ ~ (exists w1, simulate scenario_model 0 (scenario_world negative_process_time)
                   = (Ok [], w1)).
Proof.
  split; [reflexivity|]. intros (w1 & H).
  apply (f_equal fst) in H. discriminate H.
Qed.

Lemma simulate_zero_patients_baseline :
  live scenario_model (scenario_world baseline) baseline (909, O)
  /\ sampler_accepts baseline = true
  /\ exists w1,
       simulate scenario_model 0 (scenario_world baseline) = (Ok [], w1)
       /\ live scenario_model w1 baseline (909, O).
Proof.
  split; [apply scenario_live|]. split; [reflexivity|].
  exact (simulate_zero_patients scenario_model (scenario_world baseline) baseline (909, O)
           (scenario_live baseline) eq_refl).
Defined.


(** * Callers: several calls, several simulators, the script *)

Section Callers.
Context {G : Type} {K : BitGenerator G}.

(** What [__init__] leaves when it returns. *)
Lemma init_returns params random_state (w : world G) model w1 :
  SimpleMonteCarloED_init params random_state w = (Ok model, w1) ->
  model = {| _params := params; _rs := next_loc w |}
  /\ next_loc w1 = S (next_loc w)
  /\ params_heap w1 = params_heap w
  /\ (forall l, l <> next_loc w -> rs_heap w1 l = rs_heap w l)
  /\ exists g, rs_heap w1 (next_loc w) = Some g.
Proof.
  unfold SimpleMonteCarloED_init, RandomState, bind.
  destruct random_state as [s|].
  - destruct (seed_in_range s); [|discriminate].
    unfold alloc_rs, ret. intros H; injection H as <- <-. simpl.
    repeat split; [intros l Hl; now apply upd_other | eexists; apply upd_same].
  - unfold read_entropy, alloc_rs, ret. intros H; injection H as <- <-. simpl.
    repeat split; [intros l Hl; now apply upd_other | eexists; apply upd_same].
Qed.

(** Whether it returns or raises, [__init__] leaves the configurations alone
    and takes no location back. *)
Lemma init_store params random_state (w : world G) :
  params_heap (snd (SimpleMonteCarloED_init params random_state w)) = params_heap w
  /\ (next_loc w <= next_loc (snd (SimpleMonteCarloED_init params random_state w)))%nat.
Proof.
  destruct (SimpleMonteCarloED_init params random_state w) as [[model|e] w1] eqn:E.
  - apply init_returns in E. destruct E as (_ & Hn & Hp & _). simpl. split; [exact Hp | lia].
  - revert E. unfold SimpleMonteCarloED_init, RandomState, bind.
    destruct random_state as [s|].
    + destruct (seed_in_range s); [discriminate|].
      unfold raise. intros H; injection H as _ <-. simpl. split; [reflexivity | lia].
    + discriminate.
Qed.

(** X1.  Calls on one simulator continue one stream: after a call
    [simulate(n)] that returns, the generator is [n] variates of each of the
    three kinds further, and the next call [simulate(m)] is the three draws
    and the arithmetic from there. *)
Theorem simulate_continues_stream self n m (w : world G) c g out w1 :
  live self w c g ->
  simulate self n w = (Ok out, w1) ->
  let cnt := Z.to_nat n in
  let g3 :=
    advance (exponential_variate (mean_dta c)) cnt
      (advance (random_binomial 1 (p_admit c)) cnt
         (advance (exponential_variate (mean_process_time c)) cnt g)) in
  live self w1 c g3
  /\ exists w2, simulate self m w1 = (outcome_of_draws (fst (three_draws c m g3)), w2).
Proof.
  intros Hl Hs. cbv zeta.
  destruct (simulate_returns_inv _ _ _ _ _ _ _ Hl Hs) as (pt & adm & ad & g3 & Hd & _ & Hl1).
  destruct (three_draws_returns _ _ _ _ _ _ _ Hd) as (_ & _ & _ & _ & _ & Hg3).
  simpl in Hg3. rewrite <- Hg3. split; [exact Hl1|].
  destruct (simulate_on_store self m w1 c g3 Hl1) as (w2 & E & _). eauto.
Qed.

(** X2.  A call with a negative [n_patients] raises [ValueError] and is
    without effect on the simulator: the next call returns what it would have
    returned without it. *)
Theorem negative_size_has_no_effect self n m (w : world G) c g :
  live self w c g ->
  n < 0 ->
  (exists msg, fst (simulate self n w) = Raise (ValueError msg))
  /\ live self (snd (simulate self n w)) c g
  /\ fst (simulate self m (snd (simulate self n w))) = fst (simulate self m w).
Proof.
  intros Hl Hn.
  destruct (simulate_on_store self n w c g Hl) as (w1 & E & Hl1).
  destruct (three_draws_negative_size c n g Hn) as (msg & Hd).
  rewrite Hd in E, Hl1. simpl in E, Hl1. rewrite E. simpl.
  split; [eauto|]. split; [exact Hl1|].
  destruct (simulate_on_store self m w1 c g Hl1) as (w2 & -> & _).
  destruct (simulate_on_store self m w c g Hl) as (w3 & -> & _).
  reflexivity.
Qed.

(** X3.  Two simulators with generators of their own do not interfere, also
    on one shared configuration: a call on the first changes neither the state
    nor the next outcome of the second. *)
Theorem simulators_do_not_interfere m1 m2 n1 n2 (w : world G) c1 c2 g1 g2 :
  live m1 w c1 g1 ->
  live m2 w c2 g2 ->
  _rs m1 <> _rs m2 ->
  live m2 (snd (simulate m1 n1 w)) c2 g2
  /\ fst (simulate m2 n2 (snd (simulate m1 n1 w))) = fst (simulate m2 n2 w).
Proof.
  intros Hl1 Hl2 Hne.
  pose proof (frames_simulate m1 n1 w) as (Hp & Hr & _).
  assert (Hl2' : live m2 (snd (simulate m1 n1 w)) c2 g2).
  { destruct Hl2 as [Hc Hg]. split; [now rewrite Hp | rewrite Hr; auto]. }
  split; [exact Hl2'|].
  destruct (simulate_on_store m2 n2 _ c2 g2 Hl2') as (wa & -> & _).
  destruct (simulate_on_store m2 n2 w c2 g2 Hl2) as (wb & -> & _).
  reflexivity.
Qed.

Lemma setattr_store l a (w : world G) : snd (ScenarioParameters_setattr l a w) = w.
Proof.
  unfold ScenarioParameters_setattr, dataclass_setattr.
  destruct (params_heap w l); reflexivity.
Qed.

Lemma run_statement_next_loc st (w : world G) :
  (next_loc w <= next_loc (run_statement st w))%nat.
Proof.
  destruct st as [nm a b c | params rs | params rs n | l a]; simpl.
  - lia.
  - apply init_store.
  - pose proof (frames_simulate {| _params := params; _rs := rs |} n w) as (_ & _ & Hn & _).
    rewrite Hn. lia.
  - rewrite setattr_store. lia.
Qed.

Lemma run_statements_next_loc sts :
  forall w : world G, (next_loc w <= next_loc (run_statements sts w))%nat.
Proof.
  induction sts as [|st sts IH]; intros w; simpl; [lia|].
  specialize (IH (run_statement st w)). pose proof (run_statement_next_loc st w). lia.
Qed.

(** X4.  No two simulators share a generator: whatever the caller does
    between two constructions, seeded or not, the second simulator's generator
    is another object than the first's. *)
Theorem generators_never_shared p1 r1 p2 r2 sts (w : world G) model1 w1 model2 w2 :
  SimpleMonteCarloED_init p1 r1 w = (Ok model1, w1) ->
  SimpleMonteCarloED_init p2 r2 (run_statements sts w1) = (Ok model2, w2) ->
  _rs model1 <> _rs model2.
Proof.
  intros E1 E2.
  apply init_returns in E1. destruct E1 as (-> & Hn1 & _).
  apply init_returns in E2. destruct E2 as (-> & _).
  simpl. pose proof (run_statements_next_loc sts w1). lia.
Qed.

Lemma run_statement_params st (w : world G) :
  params_fresh w ->
  params_fresh (run_statement st w)
  /\ forall l c, params_heap w l = Some c -> params_heap (run_statement st w) l = Some c.
Proof.
  intros Hf. destruct st as [nm a b c | params rs | params rs n | l a]; simpl.
  - split.
    + intros l Hl. simpl in *. rewrite upd_other by lia. apply Hf. lia.
    + intros l c' Hc. rewrite upd_other; [exact Hc|].
      intros ->. rewrite (Hf (next_loc w)) in Hc by lia. discriminate.
  - destruct (init_store params rs w) as (Hp & Hn). split.
    + intros l Hl. rewrite Hp. apply Hf. lia.
    + intros l c Hc. now rewrite Hp.
  - pose proof (frames_simulate {| _params := params; _rs := rs |} n w) as (Hp & _ & Hn & _).
    split.
    + intros l Hl. rewrite Hp. apply Hf. rewrite Hn in Hl. exact Hl.
    + intros l c Hc. now rewrite Hp.
  - rewrite setattr_store. auto.
Qed.

Lemma run_statements_params sts :
  forall (w : world G),
    params_fresh w ->
    params_fresh (run_statements sts w)
    /\ forall l c, params_heap w l = Some c -> params_heap (run_statements sts w) l = Some c.
Proof.
  induction sts as [|st sts IH]; intros w Hf; simpl; [auto|].
  destruct (run_statement_params st w Hf) as (Hf1 & Hkeep).
  destruct (IH _ Hf1) as (Hf2 & Hkeep2). auto.
Qed.

Lemma empty_world_fresh entropy : params_fresh (@empty_world G entropy).
Proof. intros l _. reflexivity. Qed.

(** X5.  A configuration never changes: in a store that a caller has built
    from nothing, whatever sequence of constructions, simulations and
    attempted assignments the caller runs next, each configuration holds the
    field values it had. *)
Theorem configurations_never_change entropy before sts l c :
  params_heap (run_statements before (@empty_world G entropy)) l = Some c ->
  params_heap (run_statements sts (run_statements before (empty_world entropy))) l
  = Some c.
Proof.
  intros Hc.
  destruct (run_statements_params before _ (empty_world_fresh entropy)) as (Hf & _).
  destruct (run_statements_params sts _ Hf) as (_ & Hkeep). auto.
Qed.

End Callers.

(** ** Common random numbers *)

Section CommonRandomNumbers.
Context {G : Type} {K : BitGenerator G}.

(** An exponential draw is the standard variates of the generator, each
    multiplied by the scale; the scale does not reach the generator. *)
Lemma fill_exponential_scale scale cnt :
  forall g,
    fill (exponential_variate scale) cnt g
    = (map (fun e => (scale * e)%float) (fst (fill standard_exponential cnt g)),
       snd (fill standard_exponential cnt g)).
Proof.
  induction cnt as [|k IH]; intros g; simpl; [reflexivity|].
  unfold exponential_variate at 1.
  destruct (standard_exponential g) as [e g1]. rewrite (IH g1).
  destruct (fill standard_exponential k g1) as [es g2]. reflexivity.
Qed.

Lemma advance_exponential_scale scale cnt g :
  advance (exponential_variate scale) cnt g = advance standard_exponential cnt g.
Proof. now rewrite <- !fill_advance, fill_exponential_scale. Qed.

Lemma run_once_params l seed n (w : world G) :
  params_heap (snd (run_once l seed n w)) = params_heap w.
Proof.
  unfold run_once, bind.
  destruct (init_store l seed w) as (Hp & _).
  destruct (SimpleMonteCarloED_init l seed w) as [[model|e] w1]; simpl in *; [|exact Hp].
  pose proof (frames_simulate model n w1) as (Hq & _). now rewrite Hq.
Qed.

(** A seeded run that returns, written on the standard variates of the
    generator: the process times are the first [n] standard exponential
    variates after the seed, each times [mean_process_time]; the admissions
    are the next [n] binomial variates; the delays are the [n] standard
    exponential variates after those, each times [mean_dta]. *)
Lemma run_once_on_standard_variates s n c (w : world G) l out :
  params_heap w l = Some c ->
  fst (run_once l (Some s) n w) = Ok out ->
  let cnt := Z.to_nat n in
  let es := fst (fill standard_exponential cnt (seed_state s)) in
  let g1 := advance standard_exponential cnt (seed_state s) in
  let adm := fst (fill (random_binomial 1 (p_admit c)) cnt g1) in
  let ds :=
    fst (fill standard_exponential cnt (advance (random_binomial 1 (p_admit c)) cnt g1)) in
  let pt := map (fun e => (mean_process_time c * e)%float) es in
  let ad := map (fun e => (mean_dta c * e)%float) ds in
  out = admitted_total_times pt adm ad cnt ++ not_admitted_total_times pt adm cnt.
Proof.
  intros Hc E. rewrite (run_once_seeded l s n w c Hc) in E.
  destruct (seed_in_range s); [|discriminate].
  destruct (three_draws c n (seed_state s)) as [[[[pt adm] ad]|e] g3] eqn:D;
    [|discriminate].
  simpl in E.
  destruct (three_draws_returns _ _ _ _ _ _ _ D) as (_ & _ & Hpt & Hadm & Had & _).
  simpl in *.
  assert (L1 : length pt = length adm) by (rewrite Hpt, Hadm, !fill_length; reflexivity).
  assert (L2 : length ad = length adm) by (rewrite Had, Hadm, !fill_length; reflexivity).
  assert (N1 : length adm = Z.to_nat n) by (rewrite Hadm; apply fill_length).
  rewrite (ed_times_by_index pt adm ad L1 L2), N1 in E. injection E as <-.
  rewrite fill_exponential_scale in Hpt, Had. simpl in Hpt, Had.
  rewrite !advance_exponential_scale in *.
  now rewrite <- Hpt, <- Hadm, <- Had.
Qed.

(** X6.  Common random numbers (lines 51-53, 130): two scenarios run with one
    seed and one [n] are built on the same variates of the generator.  Their
    process times are the same standard exponential variates [es], each times
    the scenario's own mean; their admissions and the standard variates of
    their delays depend on the scenario through [p_admit] only, so with equal
    [p_admit] the same patients are admitted and the delays are the same
    variates times each [mean_dta]. *)
Theorem common_random_numbers s n c1 c2 (w1 w2 : world G) l1 l2 out1 out2 :
  params_heap w1 l1 = Some c1 ->
  params_heap w2 l2 = Some c2 ->
  fst (run_once l1 (Some s) n w1) = Ok out1 ->
  fst (run_once l2 (Some s) n w2) = Ok out2 ->
  let cnt := Z.to_nat n in
  let es := fst (fill standard_exponential cnt (seed_state s)) in
  let g1 := advance standard_exponential cnt (seed_state s) in
  let admissions p := fst (fill (random_binomial 1 p) cnt g1) in
  let delays p :=
    fst (fill standard_exponential cnt (advance (random_binomial 1 p) cnt g1)) in
  let totals c :=
    let pt := map (fun e => (mean_process_time c * e)%float) es in
    let adm := admissions (p_admit c) in
    let ad := map (fun e => (mean_dta c * e)%float) (delays (p_admit c)) in
    admitted_total_times pt adm ad cnt ++ not_admitted_total_times pt adm cnt in
  out1 = totals c1 /\ out2 = totals c2.
Proof.
  intros H1 H2 E1 E2. cbv zeta. split.
  - exact (run_once_on_standard_variates s n c1 w1 l1 out1 H1 E1).
  - exact (run_once_on_standard_variates s n c2 w2 l2 out2 H2 E2).
Qed.

End CommonRandomNumbers.

(** ** The loop and the script *)

Section ScriptProperties.
Context {G : Type} {K : BitGenerator G}.

(** A seeded run reads the store only at its scenario. *)
Lemma run_once_outcome l s n (w : world G) :
  fst (run_once l (Some s) n w)
  = if seed_in_range s
    then match params_heap w l with
         | Some c => outcome_of_draws (fst (three_draws c n (seed_state s)))
         | None => Raise UnboundReference
         end
    else Raise (ValueError "Seed must be between 0 and 2**32 - 1").
Proof.
  destruct (params_heap w l) as [c|] eqn:Hc; [now apply run_once_seeded|].
  unfold run_once, bind. destruct (seed_in_range s) eqn:Hs.
  - destruct (init_seeded l s w Hs) as (w1 & -> & Hp & _).
    unfold simulate, _simulate_ed_process_times, bind, read_params. simpl.
    now rewrite Hp, Hc.
  - now rewrite (init_seed_out_of_range l s w Hs).
Qed.

Lemma run_once_same_params l s n (w w' : world G) :
  params_heap w' = params_heap w ->
  fst (run_once l (Some s) n w') = fst (run_once l (Some s) n w).
Proof. intros Hp. now rewrite !run_once_outcome, Hp. Qed.

(** One turn of the loop is one seeded run. *)
Lemma collect_results_step acc l rest n (w : world G) :
  collect_results acc (l :: rest) n w
  = match run_once l (Some 909) n w with
    | (Ok t, w2) => collect_results (acc ++ [t]) rest n w2
    | (Raise e, w2) => (Raise e, w2)
    end.
Proof.
  cbn [collect_results]. unfold run_once, bind.
  destruct (SimpleMonteCarloED_init l (Some 909) w) as [[model|e] w1]; [|reflexivity].
  destruct (simulate model n w1) as [[t|e] w2]; reflexivity.
Qed.

Lemma collect_results_params scenarios n :
  forall acc (w : world G),
    params_heap (snd (collect_results acc scenarios n w)) = params_heap w.
Proof.
  induction scenarios as [|l rest IH]; intros acc w; [reflexivity|].
  rewrite collect_results_step.
  pose proof (run_once_params l (Some 909) n w) as Hp.
  destruct (run_once l (Some 909) n w) as [[t|e] w2]; simpl in Hp; [|exact Hp].
  now rewrite IH.
Qed.

Lemma collect_results_run_once scenarios n :
  forall acc (w : world G),
    fst (collect_results acc scenarios n w)
    = match all_ok (map (fun scenario => fst (run_once scenario (Some 909) n w)) scenarios)
      with
      | Ok l => Ok (acc ++ l)
      | Raise e => Raise e
      end.
Proof.
  induction scenarios as [|l rest IH]; intros acc w.
  - simpl. now rewrite app_nil_r.
  - rewrite collect_results_step. cbn [map all_ok].
    pose proof (run_once_params l (Some 909) n w) as Hp.
    assert (Hrest : forall w2, params_heap w2 = params_heap w ->
              map (fun scenario => fst (run_once scenario (Some 909) n w2)) rest
              = map (fun scenario => fst (run_once scenario (Some 909) n w)) rest)
      by (intros w2 H2; apply map_ext; intros a; now apply run_once_same_params).
    destruct (run_once l (Some 909) n w) as [[t|e] w2]; simpl in Hp |- *; [|reflexivity].
    rewrite IH, (Hrest w2 Hp).
    destruct (all_ok _) as [ts|e]; [|reflexivity].
    now rewrite <- app_assoc.
Qed.

Lemma all_ok_Forall2 {A : Type} (rs : list (result A)) (l : list A) :
  all_ok rs = Ok l -> Forall2 (fun r a => r = Ok a) rs l.
Proof.
  revert l. induction rs as [|[a|e] rs IH]; intros l; simpl.
  - intros H; injection H as <-. constructor.
  - destruct (all_ok rs) as [l'|e]; [|discriminate].
    intros H; injection H as <-. constructor; auto.
  - discriminate.
Qed.

(** X7.  The loop of lines 129-132 gives each scenario the run it would have
    alone: [results] holds, in the order of [scenarios], what a model built on
    that scenario with seed 909 returns from the store the loop started in;
    if one of them raises, the loop raises the first such exception. *)
Theorem loop_runs_each_scenario_alone scenarios n (w : world G) :
  fst (collect_results [] scenarios n w)
  = all_ok (map (fun scenario => fst (run_once scenario (Some 909) n w)) scenarios)
  /\ forall results,
       fst (collect_results [] scenarios n w) = Ok results ->
       Forall2 (fun scenario r => fst (run_once scenario (Some 909) n w) = Ok r)
               scenarios results.
Proof.
  assert (E : fst (collect_results [] scenarios n w)
              = all_ok (map (fun scenario => fst (run_once scenario (Some 909) n w))
                            scenarios)).
  { rewrite collect_results_run_once. now destruct (all_ok _). }
  split; [exact E|].
  intros results H. rewrite E in H. apply all_ok_Forall2 in H.
  clear E. revert results H.
  induction scenarios as [|l rest IH]; intros results H; simpl in H.
  - inversion H. constructor.
  - inversion H as [|r a rs results' Hr Hrest]; subst. constructor; auto.
Qed.

Lemma outcome_accepted c n (g : G) :
  sampler_accepts c = true -> size_accepted n = true ->
  exists out, outcome_of_draws (fst (three_draws c n g)) = Ok out.
Proof.
  intros Ha Hn. pose proof (three_draws_accepted c n g Ha Hn) as Hd. simpl in Hd.
  rewrite Hd. simpl. rewrite ed_times_by_index by (now rewrite !fill_length).
  eauto.
Qed.

(** X8.  The script, for every [N_PATIENTS] for which numpy allocates the
    arrays (the 1000 of line 124 is one when the machine allocates 1000
    cells): it prints the two means
    150.0 and 160.0, the assignment of line 118 is refused and the refusal
    caught, and [results] holds two sequences, the runs of the unchanged
    baseline and of the flu scenario, both from seed 909. *)
Theorem main_results N_PATIENTS (w : world G) :
  size_accepted N_PATIENTS = true ->
  exists r0 r1 w1,
    main N_PATIENTS w
    = (Ok ([print_float 150; print_float 160;
            print_string "cannot change an immutable dataclass!"],
           [r0; r1]), w1)
    /\ outcome_of_draws (fst (three_draws baseline N_PATIENTS (seed_state 909))) = Ok r0
    /\ outcome_of_draws (fst (three_draws flu_pandemic N_PATIENTS (seed_state 909))) = Ok r1
    /\ params_heap w1 (next_loc w) = Some baseline
    /\ params_heap w1 (S (next_loc w)) = Some flu_pandemic.
Proof.
  intros Hn.
  destruct (outcome_accepted baseline N_PATIENTS (seed_state 909) eq_refl Hn) as (r0 & E0).
  destruct (outcome_accepted flu_pandemic N_PATIENTS (seed_state 909) eq_refl Hn) as (r1 & E1).
  exists r0, r1.
  unfold main, ScenarioParameters_init, alloc_params.
  unfold bind at 1. unfold bind at 1. cbn [next_loc set_next_loc set_params_heap params_heap].
  set (h := upd (upd (params_heap w) (next_loc w) baseline) (S (next_loc w)) flu_pandemic).
  assert (H0 : h (next_loc w) = Some baseline).
  { unfold h. rewrite upd_other by lia. apply upd_same. }
  assert (H1 : h (S (next_loc w)) = Some flu_pandemic) by apply upd_same.
  match goal with
  | |- context [bind (read_params (next_loc w)) ?k ?w2] => set (w0 := w2)
  end.
  assert (P : params_heap w0 = h) by reflexivity.
  unfold bind at 1. unfold read_params at 1. rewrite P, H0.
  unfold bind at 1. unfold read_params at 1. rewrite P, H1.
  unfold bind at 1.
  unfold try_except, ScenarioParameters_setattr, dataclass_setattr, bind at 1.
  rewrite P, H0. cbn [ScenarioParameters_frozen is_FrozenInstanceError ret].
  unfold bind at 1.
  match goal with
  | |- context [collect_results ?acc ?l N_PATIENTS w0] =>
      pose proof (collect_results_run_once l N_PATIENTS acc w0) as C;
      pose proof (collect_results_params l N_PATIENTS acc w0) as Q;
      cbn [map] in C; rewrite !run_once_outcome, P, H0, H1 in C;
      change (seed_in_range 909) with true in C; cbv iota in C;
      rewrite E0, E1 in C; cbn [all_ok app] in C; rewrite P in Q;
      destruct (collect_results acc l N_PATIENTS w0) as [r wz]
  end.
  cbn [fst snd] in C, Q. subst r.
  exists wz. cbn [ret app baseline flu_pandemic ScenarioParameters_new mean_process_time].
  rewrite Q. auto.
Qed.

End ScriptProperties.

(** ** When the output is in patient order, and what a NaN mean does *)

Lemma nth_ones_zeros a b i :
  nth i (repeat 1 a ++ repeat 0 b) 0 = if (i <? a)%nat then 1 else 0.
Proof.
  destruct (i <? a)%nat eqn:Hi.
  - apply Nat.ltb_lt in Hi. rewrite app_nth1 by (now rewrite repeat_length).
    apply nth_repeat_lt. exact Hi.
  - apply Nat.ltb_ge in Hi. rewrite app_nth2 by (now rewrite repeat_length).
    rewrite repeat_length.
    destruct (nth_in_or_default (i - a) (repeat 0 b) 0) as [H | H]; [|exact H].
    now apply repeat_spec in H.
Qed.

Lemma filter_all {A : Type} (f : A -> bool) (l : list A) :
  (forall x, In x l -> f x = true) -> filter f l = l.
Proof.
  intros H. rewrite (filter_ext_in f (fun _ => true) l H). apply filter_true.
Qed.

Lemma filter_none {A : Type} (f : A -> bool) (l : list A) :
  (forall x, In x l -> f x = false) -> filter f l = [].
Proof.
  intros H. rewrite (filter_ext_in f (fun _ => false) l H). apply filter_false.
Qed.

(** X9.  When no admitted patient comes after one that is not admitted (so
    also when nobody, or everybody, is admitted), the output is in patient
    order: its i-th value is the total time of patient i. *)
Theorem output_in_patient_order (pt : list float) (adm : list Z) (ad : list float) a b :
  adm = repeat 1 a ++ repeat 0 b ->
  length pt = length adm ->
  length ad = length adm ->
  ed_times pt adm ad = Ok (map (total_time pt adm ad) (seq 0 (length adm))).
Proof.
  intros Hadm Lpt Lad. rewrite (ed_times_by_index pt adm ad Lpt Lad). f_equal.
  assert (Hn : length adm = (a + b)%nat)
    by (rewrite Hadm, length_app, !repeat_length; reflexivity).
  rewrite Hn, seq_app, map_app. simpl.
  unfold admitted_total_times, not_admitted_total_times.
  rewrite seq_app, !filter_app. simpl.
  assert (Hin1 : forall i, In i (seq 0 a) -> nth i adm 0 = 1).
  { intros i Hi. apply in_seq in Hi. rewrite Hadm, nth_ones_zeros.
    destruct (Nat.ltb_spec i a); [reflexivity | lia]. }
  assert (Hin0 : forall i, In i (seq a b) -> nth i adm 0 = 0).
  { intros i Hi. apply in_seq in Hi. rewrite Hadm, nth_ones_zeros.
    destruct (Nat.ltb_spec i a); [lia | reflexivity]. }
  rewrite (filter_all (admitted adm) (seq 0 a))
    by (intros i Hi; unfold admitted; now rewrite (Hin1 i Hi)).
  rewrite (filter_none (admitted adm) (seq a b))
    by (intros i Hi; unfold admitted; now rewrite (Hin0 i Hi)).
  rewrite (filter_none (not_admitted adm) (seq 0 a))
    by (intros i Hi; unfold not_admitted; now rewrite (Hin1 i Hi)).
  rewrite (filter_all (not_admitted adm) (seq a b))
    by (intros i Hi; unfold not_admitted; now rewrite (Hin0 i Hi)).
  rewrite app_nil_r. simpl. f_equal; apply map_ext_in; intros i Hi; unfold total_time, admitted.
  - now rewrite (Hin1 i Hi).
  - now rewrite (Hin0 i Hi).
Qed.

Lemma SFeqb_refl s : s <> S754_nan -> SFeqb s s = true.
Proof.
  unfold SFeqb, SFcompare. destruct s as [[]|[]| |[] m e]; try easy;
    intros _; rewrite Z.compare_refl, Pos.compare_cont_refl; reflexivity.
Qed.

Lemma is_nan_spec x : is_nan x = true <-> Prim2SF x = S754_nan.
Proof.
  unfold is_nan. rewrite eqb_spec. split.
  - intros H. destruct (Prim2SF x) as [s|s| |s m e] eqn:E; try reflexivity;
      rewrite SFeqb_refl in H by discriminate; discriminate.
  - intros ->. reflexivity.
Qed.

Lemma mul_nan x y : is_nan x = true -> is_nan (x * y)%float = true.
Proof.
  rewrite !is_nan_spec, mul_spec. intros ->. reflexivity.
Qed.

Lemma add_nan x y : is_nan x = true -> is_nan (x + y)%float = true.
Proof.
  rewrite !is_nan_spec, add_spec. intros ->. reflexivity.
Qed.

Section NaN.
Context {G : Type} {K : BitGenerator G}.

(** X10.  A NaN mean is not rejected: with [mean_process_time] NaN the first
    sampler accepts the scale, the call returns when the other arguments are
    accepted too and numpy allocates arrays of [n] cells, and every value of a
    sequence it returns is NaN. *)
Theorem nan_mean_gives_nan_times self n (w : world G) c g :
  is_nan (mean_process_time c) = true ->
  live self w c g ->
  scale_rejected (mean_process_time c) = false
  /\ (forall out w1, simulate self n w = (Ok out, w1) ->
                     Forall (fun x => is_nan x = true) out)
  /\ (size_accepted n = true -> probability (p_admit c) = true ->
      scale_rejected (mean_dta c) = false ->
      exists out w1, simulate self n w = (Ok out, w1)).
Proof.
  intros Hnan Hl.
  assert (Hacc : scale_rejected (mean_process_time c) = false)
    by (unfold scale_rejected, check_constraint; now rewrite Hnan).
  split; [exact Hacc|]. split.
  - intros out w1 Hs.
    destruct (simulate_returns_inv _ _ _ _ _ _ _ Hl Hs) as (pt & adm & ad & g3 & Hd & -> & _).
    destruct (three_draws_returns _ _ _ _ _ _ _ Hd) as (Hn & _ & Hpt & _).
    simpl in Hpt.
    assert (Lpt : length pt = Z.to_nat n) by (rewrite Hpt; apply fill_length).
    assert (Npt : Forall (fun x => is_nan x = true) pt).
    { rewrite Hpt. apply fill_Forall. intros g'. unfold exponential_variate.
      destruct (standard_exponential g') as [e g1]. simpl. now apply mul_nan. }
    assert (Hnth : forall i, (i < Z.to_nat n)%nat -> is_nan (nth i pt 0%float) = true).
    { intros i Hi. rewrite Forall_forall in Npt. apply Npt, nth_In. lia. }
    unfold admitted_total_times, not_admitted_total_times.
    apply Forall_app. split; apply Forall_map, Forall_forall; intros i Hi;
      apply filter_In in Hi; destruct Hi as [Hi _]; apply in_seq in Hi.
    + apply add_nan, Hnth. lia.
    + apply Hnth. lia.
  - intros Hn Hp Hd. apply (simulate_returns self n w c g Hl); [|exact Hn].
    unfold sampler_accepts. unfold scale_rejected in Hacc, Hd.
    apply negb_false_iff in Hacc, Hd.
    now rewrite Hacc, Hd, (probability_accepted _ "p" Hp).
Qed.

End NaN.

(** ** The callers' properties on the example generator *)

Lemma simulate_continues_stream_baseline :
  live scenario_model (scenario_world baseline) baseline (909, O)
  /\ fst (simulate scenario_model 6 (scenario_world baseline))
     = Ok [405; 67.5; 0; 0; 450; 225]%float
  /\ live scenario_model (snd (simulate scenario_model 6 (scenario_world baseline)))
          baseline (909, 18%nat)
  /\ exists w2,
       simulate scenario_model 4 (snd (simulate scenario_model 6 (scenario_world baseline)))
       = (Ok [405; 450; 37.5; 0]%float, w2).
Proof.
  split; [apply scenario_live|]. split; [reflexivity|].
  exact (simulate_continues_stream scenario_model 6 4 (scenario_world baseline) baseline
           (909, O) [405; 67.5; 0; 0; 450; 225]%float
           (snd (simulate scenario_model 6 (scenario_world baseline)))
           (scenario_live baseline) eq_refl).
Defined.

Lemma negative_size_has_no_effect_baseline :
  -1 < 0
  /\ (exists msg, fst (simulate scenario_model (-1) (scenario_world baseline))
                  = Raise (ValueError msg))
  /\ live scenario_model (snd (simulate scenario_model (-1) (scenario_world baseline)))
          baseline (909, O)
  /\ fst (simulate scenario_model 6
            (snd (simulate scenario_model (-1) (scenario_world baseline))))
     = fst (simulate scenario_model 6 (scenario_world baseline)).
Proof.
  split; [lia|].
  exact (negative_size_has_no_effect scenario_model (-1) 6 (scenario_world baseline)
           baseline (909, O) (scenario_live baseline) ltac:(lia)).
Defined.

Lemma simulators_do_not_interfere_baseline :
  live scenario_model two_models_world baseline (909, O)
  /\ live second_model two_models_world baseline (7, O)
  /\ live second_model (snd (simulate scenario_model 6 two_models_world)) baseline (7, O)
  /\ fst (simulate second_model 6 (snd (simulate scenario_model 6 two_models_world)))
     = fst (simulate second_model 6 two_models_world).
Proof.
  assert (L1 : live scenario_model two_models_world baseline (909, O))
    by (split; reflexivity).
  assert (L2 : live second_model two_models_world baseline (7, O))
    by (split; reflexivity).
  split; [exact L1|]. split; [exact L2|].
  exact (simulators_do_not_interfere scenario_model second_model 6 6 two_models_world
           baseline baseline (909, O) (7, O) L1 L2 ltac:(simpl; lia)).
Defined.

Lemma generators_never_shared_baseline :
  SimpleMonteCarloED_init 0%nat (Some 7) (scenario_world baseline)
  = (Ok second_model, two_models_world)
  /\ fst (SimpleMonteCarloED_init 0%nat None (run_statements some_statements two_models_world))
     = Ok {| _params := 0%nat; _rs := 5%nat |}
  /\ _rs second_model <> 5%nat.
Proof.
  split; [reflexivity|]. split; [reflexivity|].
  exact (generators_never_shared 0%nat (Some 7) 0%nat None some_statements
           (scenario_world baseline) second_model two_models_world
           {| _params := 0%nat; _rs := 5%nat |}
           (snd (SimpleMonteCarloED_init 0%nat None
                   (run_statements some_statements two_models_world)))
           eq_refl eq_refl).
Defined.

Lemma configurations_never_change_baseline :
  params_heap (run_statements scenario_statements (empty_world (fun _ => 0))) 0%nat
  = Some baseline
  /\ params_heap
       (run_statements some_statements
          (run_statements scenario_statements (empty_world (fun _ => 0)))) 0%nat
     = Some baseline.
Proof.
  split; [reflexivity|].
  exact (@configurations_never_change _ CountingGenerator (fun _ => 0) scenario_statements
           some_statements 0%nat baseline eq_refl).
Defined.

Lemma common_random_numbers_scenarios :
  params_heap (scenario_world baseline) 0%nat = Some baseline
  /\ params_heap busy_world 0%nat = Some flu_pandemic
  /\ fst (run_once 0%nat (Some 909) 6 (scenario_world baseline))
     = Ok [405; 67.5; 0; 0; 450; 225]%float
  /\ fst (run_once 0%nat (Some 909) 6 busy_world)
     = Ok [510; 0; 85; 0; 480; 240]%float
  /\ fst (fill standard_exponential 6 (seed_state 909))
     = [1.5; 0; 3; 0.25; 1.5; 0]%float
  /\ [405; 67.5; 0; 0; 450; 225]%float
     = admitted_total_times
         (map (fun e => (150 * e)%float) [1.5; 0; 3; 0.25; 1.5; 0]%float)
         [1; 0; 0; 1; 0; 1] [180; 0; 360; 30; 180; 0]%float 6
       ++ not_admitted_total_times
            (map (fun e => (150 * e)%float) [1.5; 0; 3; 0.25; 1.5; 0]%float)
            [1; 0; 0; 1; 0; 1] 6
  /\ [510; 0; 85; 0; 480; 240]%float
     = admitted_total_times
         (map (fun e => (160 * e)%float) [1.5; 0; 3; 0.25; 1.5; 0]%float)
         [1; 1; 0; 1; 0; 1] [270; 0; 540; 45; 270; 0]%float 6
       ++ not_admitted_total_times
            (map (fun e => (160 * e)%float) [1.5; 0; 3; 0.25; 1.5; 0]%float)
            [1; 1; 0; 1; 0; 1] 6.
Proof.
  split; [reflexivity|]. split; [reflexivity|]. split; [reflexivity|].
  split; [reflexivity|]. split; [reflexivity|].
  exact (@common_random_numbers _ CountingGenerator 909 6 baseline flu_pandemic
           (scenario_world baseline) busy_world 0%nat 0%nat
           [405; 67.5; 0; 0; 450; 225]%float [510; 0; 85; 0; 480; 240]%float
           eq_refl eq_refl eq_refl eq_refl).
Defined.

Lemma main_results_five_patients :
  size_accepted 5 = true
  /\ fst (main 5 (empty_world (fun _ => 0)))
     = Ok ([print_float 150; print_float 160;
            print_string "cannot change an immutable dataclass!"],
           [[30; 585; 225; 450; 37.5]%float; [45; 750; 780; 240; 40]%float]).
Proof.
  split; [reflexivity|].
  destruct (@main_results _ CountingGenerator 5 (empty_world (fun _ => 0)) eq_refl)
    as (r0 & r1 & w1 & E & E0 & E1 & _).
  rewrite E. injection E0 as <-. injection E1 as <-. reflexivity.
Defined.

Lemma output_in_patient_order_example :
  [1; 1; 0] = repeat 1 2 ++ repeat 0 1
  /\ ed_times [1; 2; 3]%float [1; 1; 0] [10; 20; 30]%float = Ok [11; 22; 3]%float.
Proof.
  split; [reflexivity|].
  exact (output_in_patient_order [1; 2; 3]%float [1; 1; 0] [10; 20; 30]%float 2 1
           eq_refl eq_refl eq_refl).
Defined.

Lemma nan_mean_gives_nan_times_example :
  is_nan (mean_process_time nan_process_time) = true
  /\ live scenario_model (scenario_world nan_process_time) nan_process_time (909, O)
  /\ exists out w1,
       simulate scenario_model 3 (scenario_world nan_process_time) = (Ok out, w1)
       /\ Forall (fun x => is_nan x = true) out.
Proof.
  split; [reflexivity|]. split; [apply scenario_live|].
  destruct (nan_mean_gives_nan_times scenario_model 3 (scenario_world nan_process_time)
              nan_process_time (909, O) eq_refl (scenario_live nan_process_time))
    as (_ & Hnan & Hret).
  destruct (Hret eq_refl eq_refl eq_refl) as (out & w1 & E).
  exists out, w1. split; [exact E | exact (Hnan out w1 E)].
Defined.
